(** * Extraction engine of the document processor

    A shallow embedding of [app/document_processor.py]: the text-anchor
    resolver, the field resolver, the table classifier, the transaction
    extractor, the text fallback parser and the record normalizer, followed
    by the properties of the specification that concern them.

    Conventions of the embedding.
    - Python [str] values are [string]s of ASCII characters; [\d] and
      [str.lower] are therefore the ASCII ones.
    - A Python [float] is a [PyFloat]: a finite binary64 value carried as
      the rational it equals, the two infinities, or NaN.  [float(s)]
      rounds the decimal it reads to the nearest binary64 value, ties to
      even, overflowing to infinity and underflowing to zero.  The sign
      of a zero is not kept: no comparison of the source tells [-0.0]
      from [0.0].
    - Attribute probing ([hasattr], truthiness) becomes [option]: [None]
      stands for an attribute that is absent or falsy.
    - A Python [dict] whose iteration order is observed is an association
      list in insertion order. *)

From Stdlib Require Import Bool Arith ZArith QArith Qabs Lia List Ascii String.
Import ListNotations.

Open Scope string_scope.
Open Scope Z_scope.

(* ================================================================== *)
(** ** Python strings *)
(* ================================================================== *)

Module PyStr.

(** [str.isspace] on ASCII: TAB..CR, FS..US and the blank. *)
Definition is_space (c : ascii) : bool :=
  let n := nat_of_ascii c in
  ((9 <=? n) && (n <=? 13) || (28 <=? n) && (n <=? 32))%nat.

Definition is_digit (c : ascii) : bool :=
  let n := nat_of_ascii c in ((48 <=? n) && (n <=? 57))%nat.

Definition digit_val (c : ascii) : Z := Z.of_nat (nat_of_ascii c) - 48.

Definition lower_char (c : ascii) : ascii :=
  let n := nat_of_ascii c in
  if ((65 <=? n) && (n <=? 90))%nat then ascii_of_nat (n + 32) else c.

(** [s.lower()] *)
Fixpoint lower (s : string) : string :=
  match s with
  | EmptyString => EmptyString
  | String c r => String (lower_char c) (lower r)
  end.

Fixpoint rev_onto (s acc : string) : string :=
  match s with
  | EmptyString => acc
  | String c r => rev_onto r (String c acc)
  end.

Definition rev (s : string) : string := rev_onto s EmptyString.

(** [s.lstrip()], [s.rstrip()], [s.strip()] *)
Fixpoint lstrip (s : string) : string :=
  match s with
  | EmptyString => EmptyString
  | String c r => if is_space c then lstrip r else s
  end.

Definition rstrip (s : string) : string := rev (lstrip (rev s)).

Definition strip (s : string) : string := rstrip (lstrip s).

(** [hay.startswith(needle)] *)
Fixpoint startswith (needle hay : string) : bool :=
  match needle, hay with
  | EmptyString, _ => true
  | String a n, String b h => Ascii.eqb a b && startswith n h
  | String _ _, EmptyString => false
  end.

(** [needle in hay] *)
Fixpoint contains (needle hay : string) : bool :=
  startswith needle hay ||
  match hay with
  | EmptyString => false
  | String _ h => contains needle h
  end.

(** [any(w in h for w in ws)] *)
Definition any_in (ws : list string) (h : string) : bool :=
  existsb (fun w => contains w h) ws.

(** [s.replace(c, '')] for a one-character [c] *)
Fixpoint remove_char (c : ascii) (s : string) : string :=
  match s with
  | EmptyString => EmptyString
  | String a r => if Ascii.eqb a c then remove_char c r
                  else String a (remove_char c r)
  end.

(** [sep.join(parts)] *)
Fixpoint join (sep : string) (parts : list string) : string :=
  match parts with
  | [] => EmptyString
  | [p] => p
  | p :: ps => p ++ sep ++ join sep ps
  end.

(** [s.split(c)] for a one-character separator: never the empty list. *)
Fixpoint split (c : ascii) (s : string) : list string :=
  match s with
  | EmptyString => [EmptyString]
  | String a r =>
      if Ascii.eqb a c then EmptyString :: split c r
      else match split c r with
           | [] => [String a EmptyString]
           | p :: ps => String a p :: ps
           end
  end.

Fixpoint drop (n : nat) (s : string) : string :=
  match n, s with
  | O, _ => s
  | S _, EmptyString => EmptyString
  | S k, String _ r => drop k r
  end.

Fixpoint take (n : nat) (s : string) : string :=
  match n, s with
  | O, _ => EmptyString
  | S _, EmptyString => EmptyString
  | S k, String c r => String c (take k r)
  end.

Definition len (s : string) : Z := Z.of_nat (String.length s).

(** The clamping Python applies to one bound of [s[a:b]]: a negative
    bound counts from the end, and the result is cut to [0..len]. *)
Definition clamp (n : Z) (i : Z) : Z :=
  let i' := if i <? 0 then i + n else i in
  Z.max 0 (Z.min n i').

(** [s[a:b]] with [None] for an omitted bound. *)
Definition slice (s : string) (a b : option Z) : string :=
  let n := len s in
  let lo := match a with Some i => clamp n i | None => 0 end in
  let hi := match b with Some i => clamp n i | None => n end in
  take (Z.to_nat (hi - lo)) (drop (Z.to_nat lo) s).

(** [hay.find(needle)] counted from position [pos]; [-1] when absent. *)
Fixpoint find_from (needle hay : string) (pos : Z) : Z :=
  if startswith needle hay then pos
  else match hay with
       | EmptyString => -1
       | String _ h => find_from needle h (pos + 1)
       end.

(** [hay.rfind(needle)]: the highest index at which [needle] occurs. *)
Fixpoint rfind_from (needle hay : string) (pos : Z) : Z :=
  let later := match hay with
               | EmptyString => -1
               | String _ h => rfind_from needle h (pos + 1)
               end in
  if 0 <=? later then later
  else if startswith needle hay then pos else -1.

Definition rfind (needle hay : string) : Z := rfind_from needle hay 0.

(** Truthiness of a string. *)
Definition nonempty (s : string) : bool :=
  match s with EmptyString => false | _ => true end.

(** [a or b] on strings. *)
Definition or_else (a b : string) : string :=
  if nonempty a then a else b.

End PyStr.

(* ================================================================== *)
(** ** Python floats *)
(* ================================================================== *)

Module PyFloat.

Inductive t : Type :=
| Fin (q : Q)
| PInf
| NInf
| NaN.

(** [abs(x)] *)
Definition fabs (x : t) : t :=
  match x with
  | Fin q => Fin (Qabs q)
  | PInf | NInf => PInf
  | NaN => NaN
  end.

(** [x <= y]; every comparison with NaN is false. *)
Definition leb (x y : t) : bool :=
  match x, y with
  | NaN, _ | _, NaN => false
  | NInf, _ => true
  | _, PInf => true
  | Fin a, Fin b => Qle_bool a b
  | PInf, _ => false
  | Fin _, NInf => false
  end.

(** [x >= y] *)
Definition geb (x y : t) : bool := leb y x.

(** The float of an integer below [2^53] in size. *)
Definition of_Z (z : Z) : t := Fin (inject_Z z).

(** [-x] *)
Definition fneg (x : t) : t :=
  match x with
  | Fin q => Fin (- q)
  | PInf => NInf
  | NInf => PInf
  | NaN => NaN
  end.

(** [n/d >= 2^e], for positive [n] and [d]. *)
Definition at_least_pow2 (n d e : Z) : bool :=
  if 0 <=? e then d * 2 ^ e <=? n else d <=? n * 2 ^ (- e).

(** The binary64 value nearest to the positive rational [n/d], ties to
    even.  [e] is the binary exponent of [n/d]; [k] the exponent of the
    last place kept: 53 significant bits, and no place below [2^-1074];
    [m] is [n/d] in units of [2^k], rounded.  A result of [2^1024] or
    more is infinity. *)
Definition round_pos (n d : Z) : t :=
  let e0 := Z.log2 n - Z.log2 d in
  let e := if at_least_pow2 n d e0 then e0 else e0 - 1 in
  let k := Z.max (e - 52) (-1074) in
  let num := if k <? 0 then n * 2 ^ (- k) else n in
  let den := if k <? 0 then d else d * 2 ^ k in
  let q := num / den in
  let r := num mod den in
  let m := if (den <? 2 * r) || ((den =? 2 * r) && Z.odd q)
           then q + 1 else q in
  if (971 <? k) || ((k =? 971) && (2 ^ 53 <=? m)) then PInf
  else if 0 <=? k then Fin (inject_Z (m * 2 ^ k))
  else Fin (Qred (m # Z.to_pos (2 ^ (- k)))).

(** The binary64 value nearest to a rational. *)
Definition round (q : Q) : t :=
  match Qnum q with
  | Z0 => Fin 0
  | Zpos n => round_pos (Zpos n) (Zpos (Qden q))
  | Zneg n => fneg (round_pos (Zpos n) (Zpos (Qden q)))
  end.

(** [x * k] for a positive integer [k]. *)
Definition mul_pos (x : t) (k : positive) : t :=
  match x with
  | Fin q => round (q * inject_Z (Zpos k))
  | other => other
  end.

(** The float of the decimal [n * 10^-scale]. *)
Definition dec (n : Z) (scale : nat) : t :=
  round (n # Pos.of_nat (10 ^ scale)).

Definition is_nan (x : t) : bool :=
  match x with NaN => true | _ => false end.

(** *** [float(s)]

    The grammar [float] accepts on a string: surrounding whitespace, a
    sign, then [inf], [infinity] or [nan] in any case, or a decimal
    number: digit parts with single underscores between digits, an
    optional fraction and an optional exponent, rounded to binary64.
    [None] is [ValueError]. *)

(** A digit part: [digit (["_"] digit)*]; the digits read and the rest. *)
Fixpoint digitpart (s : string) : list Z * string :=
  match s with
  | String c r =>
      if PyStr.is_digit c then
        match r with
        | String "_" (String d _ as r') =>
            if PyStr.is_digit d
            then let (ds, rest) := digitpart r' in
                 (PyStr.digit_val c :: ds, rest)
            else ([PyStr.digit_val c], r)
        | _ => let (ds, rest) := digitpart r in
               (PyStr.digit_val c :: ds, rest)
        end
      else ([], s)
  | EmptyString => ([], s)
  end.

Definition digits_value (ds : list Z) : Z :=
  fold_left (fun acc d => 10 * acc + d) ds 0.

(** [m * 10^e] as an exact rational in lowest terms. *)
Definition scale10 (m e : Z) : Q :=
  if 0 <=? e then inject_Z (m * 10 ^ e)
  else Qred (m # Z.to_pos (10 ^ (- e))).

(** The exponent part, if any: its value and the rest; [None] when an
    [e] is not followed by a well-formed exponent. *)
Definition exponent (s : string) : option (Z * string) :=
  match s with
  | String c r =>
      if Ascii.eqb (PyStr.lower_char c) "e" then
        let '(sgn, r1) :=
          match r with
          | String "+" r' => (1, r')
          | String "-" r' => (-1, r')
          | _ => (1, r)
          end in
        match digitpart r1 with
        | ([], _) => None
        | (ds, rest) => Some (sgn * digits_value ds, rest)
        end
      else Some (0, s)
  | EmptyString => Some (0, s)
  end.

(** An unsigned decimal number covering the whole of [s]. *)
Definition unsigned_decimal (s : string) : option Q :=
  let (ip, r0) := digitpart s in
  let '(fp, r1, dotted) :=
    match r0 with
    | String "." r' => let (fp, r1) := digitpart r' in (fp, r1, true)
    | _ => ([], r0, false)
    end in
  match ip, fp with
  | [], [] => None
  | _, _ =>
      match exponent r1 with
      | Some (e, EmptyString) =>
          Some (scale10 (digits_value (ip ++ fp)%list)
                        (e - Z.of_nat (List.length fp)))
      | _ => None
      end
  end.

Definition of_string (s : string) : option t :=
  let s0 := PyStr.strip s in
  let '(neg, body) :=
    match s0 with
    | String "-" r => (true, r)
    | String "+" r => (false, r)
    | _ => (false, s0)
    end in
  let lb := PyStr.lower body in
  if String.eqb lb "nan" then Some NaN
  else if String.eqb lb "inf" || String.eqb lb "infinity"
  then Some (if neg then NInf else PInf)
  else match unsigned_decimal body with
       | Some q => Some (if neg then fneg (round q) else round q)
       | None => None
       end.

End PyFloat.

(* ================================================================== *)
(** ** Backtracking matchers for the regular expressions of the source *)
(* ================================================================== *)

Module Re.

(** A matcher maps the input to the remainders it can leave, in the
    order in which a backtracking engine tries them. *)
Definition matcher := string -> list string.

Definition chr (p : ascii -> bool) : matcher :=
  fun s => match s with
           | String c r => if p c then [r] else []
           | EmptyString => []
           end.

Definition lit (c : ascii) : matcher := chr (Ascii.eqb c).

Definition seq (m1 m2 : matcher) : matcher :=
  fun s => flat_map m2 (m1 s).

(** [m1|m2] *)
Definition alt (m1 m2 : matcher) : matcher :=
  fun s => (m1 s ++ m2 s)%list.

(** [m?], greedy *)
Definition opt (m : matcher) : matcher :=
  fun s => (m s ++ [s])%list.

(** [[p]{0,n}], greedy *)
Fixpoint upto (n : nat) (p : ascii -> bool) : matcher :=
  fun s => match n with
           | O => [s]
           | S k => match s with
                    | String c r => if p c then (upto k p r ++ [s])%list else [s]
                    | EmptyString => [s]
                    end
           end.

(** [[p]*], greedy *)
Fixpoint star (p : ascii -> bool) (s : string) : list string :=
  match s with
  | String c r => if p c then (star p r ++ [s])%list else [s]
  | EmptyString => [s]
  end.

(** [[p]+], greedy *)
Definition plus (p : ascii -> bool) : matcher := seq (chr p) (star p).

(** [\s+], greedy *)
Definition spaces : matcher := plus PyStr.is_space.

(** The text consumed between [s] and its suffix [rest]. *)
Definition consumed (s rest : string) : string :=
  PyStr.take (String.length s - String.length rest) s.

Definition sep (c : ascii) : bool := Ascii.eqb c "/" || Ascii.eqb c "-".

(** [\d{1,2}[/-]\d{1,2}(?:[/-]\d{2,4})?] *)
Definition date_re : matcher :=
  seq (chr PyStr.is_digit) (seq (upto 1 PyStr.is_digit)
  (seq (chr sep)
  (seq (chr PyStr.is_digit) (seq (upto 1 PyStr.is_digit)
  (opt (seq (chr sep)
       (seq (chr PyStr.is_digit) (seq (chr PyStr.is_digit)
            (upto 2 PyStr.is_digit))))))))).

(** A match object: [start()], [end()], [group(0)]. *)
Record mobj : Type := { m_start : Z; m_end : Z; m_group : string }.

(** [re.search(m, s)], scanning from position [pos]. *)
Fixpoint search_from (m : matcher) (s : string) (pos : Z) : option mobj :=
  match m s with
  | rest :: _ =>
      let g := consumed s rest in
      Some {| m_start := pos; m_end := pos + PyStr.len g; m_group := g |}
  | [] => match s with
          | String _ r => search_from m r (pos + 1)
          | EmptyString => None
          end
  end.

Definition search (m : matcher) (s : string) : option mobj :=
  search_from m s 0.

Definition amount_class (c : ascii) : bool :=
  PyStr.is_digit c || Ascii.eqb c ",".

(** The group of the amount expression: an optional minus, one or more
    digits or commas, an optional dot, any number of digits; the
    expression itself puts an optional dollar sign before the group. *)
Definition amount_group : matcher :=
  seq (opt (lit "-")) (seq (plus amount_class)
  (seq (opt (lit ".")) (star PyStr.is_digit))).

(** One match of the amount expression at the head of [s]: the text of
    the group and the length of the whole match. *)
Definition amount_at (s : string) : option (string * nat) :=
  let tries :=
    flat_map (fun r0 => map (fun r1 => (consumed r0 r1, r1))
                            (amount_group r0))
             (opt (lit "$") s) in
  match tries with
  | (g, r1) :: _ => Some (g, (String.length s - String.length r1)%nat)
  | [] => None
  end.

(** [re.findall] of the amount expression: the groups of the successive
    non-overlapping matches.  [skip] counts the characters of the last
    match still to be passed over. *)
Fixpoint findall_amounts (s : string) (skip : nat) : list string :=
  match s with
  | EmptyString => []
  | String _ r =>
      match skip with
      | S k => findall_amounts r k
      | O => match amount_at s with
             | Some (g, n) => g :: findall_amounts r (n - 1)
             | None => findall_amounts r 0
             end
      end
  end.

(** [\d+\.?\d*], the numeric token of the time-in-business text *)
Definition number_re : matcher :=
  seq (plus PyStr.is_digit) (seq (opt (lit ".")) (star PyStr.is_digit)).

End Re.

(* ================================================================== *)
(** ** Dates: [datetime.strptime] on the formats of the source *)
(* ================================================================== *)

Module DateTime.

(** The date of a [datetime]; the values [strptime] builds here are at
    midnight, and only the date of [now] is observed. *)
Record t : Type := mk { year : Z; month : Z; day : Z }.

Definition is_leap (y : Z) : bool :=
  ((y mod 4 =? 0) && negb (y mod 100 =? 0)) || (y mod 400 =? 0).

Definition days_in_month (y m : Z) : Z :=
  if m =? 2 then (if is_leap y then 29 else 28)
  else if (m =? 4) || (m =? 6) || (m =? 9) || (m =? 11) then 30
  else 31.

(** What the [datetime] constructor accepts. *)
Definition valid (d : t) : bool :=
  (1 <=? year d) && (year d <=? 9999) &&
  (1 <=? month d) && (month d <=? 12) &&
  (1 <=? day d) && (day d <=? days_in_month (year d) (month d)).

(** Day number of a date (proleptic Gregorian), for differences. *)
Definition ordinal (d : t) : Z :=
  let y := if month d <=? 2 then year d - 1 else year d in
  let era := y / 400 in
  let yoe := y - era * 400 in
  let mp := if 2 <? month d then month d - 3 else month d + 9 in
  let doy := (153 * mp + 2) / 5 + day d - 1 in
  let doe := yoe * 365 + yoe / 4 - yoe / 100 + doy in
  era * 146097 + doe.

(** [(a - b).days] for [b] at midnight. *)
Definition days_between (a b : t) : Z := ordinal a - ordinal b.

Definition digit_char (z : Z) : ascii :=
  ascii_of_nat (48 + Z.to_nat (z mod 10)).

Definition pad2 (z : Z) : string :=
  String (digit_char (z / 10)) (String (digit_char z) EmptyString).

(** [%Y] as the C library of the Linux hosts writes it: the decimal
    digits of the year, without padding. *)
Definition year_digits (y : Z) : string :=
  if y <? 10 then String (digit_char y) EmptyString
  else if y <? 100 then pad2 y
  else if y <? 1000 then String (digit_char (y / 100)) (pad2 y)
  else pad2 (y / 100) ++ pad2 y.

(** [d.strftime("%Y-%m-%d")] *)
Definition isoformat (d : t) : string :=
  year_digits (year d) ++ "-" ++ pad2 (month d) ++ "-" ++ pad2 (day d).

(** The elements of a format string. *)
Inductive item : Type :=
| DirY | Diry | Dirm | Dird | DirB | Dirb
| Lit (c : ascii)
| Spaces.

(** Reading a format: a directive after [%], a run of whitespace, or a
    literal character.  [None] is the [ValueError] of a bad directive. *)
Fixpoint compile (fmt : string) : option (list item) :=
  match fmt with
  | EmptyString => Some []
  | String "%" (String c r) =>
      let dir :=
        if Ascii.eqb c "Y" then Some DirY
        else if Ascii.eqb c "y" then Some Diry
        else if Ascii.eqb c "m" then Some Dirm
        else if Ascii.eqb c "d" then Some Dird
        else if Ascii.eqb c "B" then Some DirB
        else if Ascii.eqb c "b" then Some Dirb
        else None in
      match dir, compile r with
      | Some d, Some its => Some (d :: its)
      | _, _ => None
      end
  | String c r =>
      match compile r with
      | Some its =>
          if PyStr.is_space c
          then Some (match its with
                     | Spaces :: _ => its
                     | _ => Spaces :: its
                     end)
          else Some (Lit c :: its)
      | None => None
      end
  end.

(** The fields a match has filled in. *)
Record fields : Type :=
  { f_year : option Z; f_month : option Z; f_day : option Z }.

Definition no_fields : fields :=
  {| f_year := None; f_month := None; f_day := None |}.

Definition in_range (lo hi : Z) (c : ascii) : bool :=
  PyStr.is_digit c &&
  (lo <=? PyStr.digit_val c) && (PyStr.digit_val c <=? hi).

(** The number a matcher read off the head of [s], for each remainder. *)
Definition reading (m : Re.matcher) (s : string) : list (Z * string) :=
  map (fun r => (PyFloat.digits_value
                   (map PyStr.digit_val
                      (list_ascii_of_string
                         (PyStr.lstrip (Re.consumed s r)))), r))
      (m s).

(** [3[0-1]|[1-2]\d|0[1-9]|[1-9]| [1-9]] *)
Definition day_re : Re.matcher :=
  Re.alt (Re.seq (Re.lit "3") (Re.chr (in_range 0 1)))
 (Re.alt (Re.seq (Re.chr (in_range 1 2)) (Re.chr PyStr.is_digit))
 (Re.alt (Re.seq (Re.lit "0") (Re.chr (in_range 1 9)))
 (Re.alt (Re.chr (in_range 1 9))
         (Re.seq (Re.lit " ") (Re.chr (in_range 1 9)))))).

(** [1[0-2]|0[1-9]|[1-9]] *)
Definition month_re : Re.matcher :=
  Re.alt (Re.seq (Re.lit "1") (Re.chr (in_range 0 2)))
 (Re.alt (Re.seq (Re.lit "0") (Re.chr (in_range 1 9)))
         (Re.chr (in_range 1 9))).

Definition year4_re : Re.matcher :=
  Re.seq (Re.chr PyStr.is_digit) (Re.seq (Re.chr PyStr.is_digit)
 (Re.seq (Re.chr PyStr.is_digit) (Re.chr PyStr.is_digit))).

Definition year2_re : Re.matcher :=
  Re.seq (Re.chr PyStr.is_digit) (Re.chr PyStr.is_digit).

Definition month_names : list string :=
  ["january"; "february"; "march"; "april"; "may"; "june"; "july";
   "august"; "september"; "october"; "november"; "december"].

Definition month_abbrs : list string :=
  ["jan"; "feb"; "mar"; "apr"; "may"; "jun"; "jul"; "aug"; "sep"; "oct";
   "nov"; "dec"].

(** A month name at the head of [s], in any case: its number and the
    remainder.  No name is a prefix of another, so the order in which
    the names are tried does not change the match. *)
Fixpoint name_at (names : list string) (k : Z) (s : string)
  : list (Z * string) :=
  match names with
  | [] => []
  | n :: ns =>
      ((if PyStr.startswith n (PyStr.lower (PyStr.take (String.length n) s))
        then [(k, PyStr.drop (String.length n) s)] else [])
         ++ name_at ns (k + 1) s)%list
  end.

(** A two-digit year: 69..99 are 1969..1999, 0..68 are 2000..2068. *)
Definition century (y : Z) : Z :=
  if y <=? 68 then 2000 + y else 1900 + y.

(** All the ways the items match a prefix of [s], first tried first. *)
Fixpoint match_items (its : list item) (f : fields) (s : string)
  : list (fields * string) :=
  match its with
  | [] => [(f, s)]
  | i :: rest =>
      let next :=
        match i with
        | DirY => map (fun '(v, r) =>
                    ({| f_year := Some v; f_month := f_month f;
                        f_day := f_day f |}, r)) (reading year4_re s)
        | Diry => map (fun '(v, r) =>
                    ({| f_year := Some (century v); f_month := f_month f;
                        f_day := f_day f |}, r)) (reading year2_re s)
        | Dirm => map (fun '(v, r) =>
                    ({| f_year := f_year f; f_month := Some v;
                        f_day := f_day f |}, r)) (reading month_re s)
        | Dird => map (fun '(v, r) =>
                    ({| f_year := f_year f; f_month := f_month f;
                        f_day := Some v |}, r)) (reading day_re s)
        | DirB => map (fun '(v, r) =>
                    ({| f_year := f_year f; f_month := Some v;
                        f_day := f_day f |}, r)) (name_at month_names 1 s)
        | Dirb => map (fun '(v, r) =>
                    ({| f_year := f_year f; f_month := Some v;
                        f_day := f_day f |}, r)) (name_at month_abbrs 1 s)
        | Lit c => map (fun r => (f, r))
                     (Re.chr (fun a => Ascii.eqb (PyStr.lower_char a)
                                                 (PyStr.lower_char c)) s)
        | Spaces => map (fun r => (f, r)) (Re.spaces s)
        end in
      flat_map (fun '(f', r) => match_items rest f' r) next
  end.

(** [datetime.strptime(s, fmt)]; [None] is [ValueError]: a bad
    directive, no match, unconverted data, or a date that does not
    exist.  A missing year is 1900, a missing month or day is 1. *)
Definition strptime (s fmt : string) : option t :=
  match compile fmt with
  | None => None
  | Some its =>
      match match_items its no_fields s with
      | (f, EmptyString) :: _ =>
          let d := {| year := match f_year f with Some y => y | None => 1900 end;
                      month := match f_month f with Some m => m | None => 1 end;
                      day := match f_day f with Some d => d | None => 1 end |} in
          if valid d then Some d else None
      | _ => None
      end
  end.

(** [d.replace(year=y)] on a date that exists in year [y]. *)
Definition replace_year (d : t) (y : Z) : t :=
  {| year := y; month := month d; day := day d |}.

End DateTime.

(* ================================================================== *)
(** ** The annotated document *)
(* ================================================================== *)

(** An offset of a text segment as the resolver meets it: an integer,
    [None] (an open slice bound), or a value on which [int(...)] or the
    slice raises ([ValueError], [TypeError]). *)
Inductive PyIndex : Type :=
| IdxInt (z : Z)
| IdxNone
| IdxBad.

(** [None] in a field: the segment has no such attribute. *)
Record TextSegment : Type :=
  { start_index : option PyIndex; end_index : option PyIndex }.

(** Both fields default to empty, as in the annotation service's
    messages; an anchor with both empty is falsy. *)
Record TextAnchor : Type :=
  { content : string; text_segments : list TextSegment }.

(** [None]: the cell has no [layout] or the layout no [text_anchor]. *)
Record Cell : Type := { layout_text_anchor : option TextAnchor }.

(** A row is its [cells]. *)
Definition Row : Type := list Cell.

Record Table : Type := { header_rows : list Row; body_rows : list Row }.

Record Page : Type := { tables : list Table }.

(** The [value] of a form field: an object with [text_content], or any
    other value, carried as its [str(...)]. *)
Inductive FieldValue : Type :=
| TextContent (s : string)
| Plain (s : string).

Record FormField : Type :=
  { ff_text_anchor : option TextAnchor; ff_value : option FieldValue }.

(** The [properties] of an entity are read by the balance extractor only
    and are left out. *)
Record Entity : Type :=
  { type_ : option string;
    mention_text : string;
    e_text_anchor : option TextAnchor }.

(** [text] is [None] when the document has no text attribute;
    [form_fields] is the field table in insertion order. *)
Record Document : Type :=
  { text : option string;
    form_fields : list (string * FormField);
    entities : list Entity;
    pages : list Page }.

(** The date of a transaction: the raw cell text, or a [datetime]. *)
Inductive TxDate : Type :=
| DateStr (s : string)
| DateObj (d : DateTime.t).

(** A transaction dictionary; [None] is a key that is not set. *)
Record Transaction : Type :=
  { tx_date : option TxDate;
    tx_description : option string;
    tx_amount : option PyFloat.t;
    tx_type : option string;
    tx_section : option string }.

(* ================================================================== *)
(** ** Text-anchor resolver *)
(* ================================================================== *)

(** The value a slice bound takes; [None] when evaluating it raises. *)
Definition index_value (i : PyIndex) : option (option Z) :=
  match i with
  | IdxInt z => Some (Some z)
  | IdxNone => Some None
  | IdxBad => None
  end.

(** The piece one segment contributes to [parts]; [None] when the
    segment lacks an offset or the [try] block raises. *)
Definition segment_text (txt : string) (seg : TextSegment) : option string :=
  match start_index seg, end_index seg with
  | Some si, Some ei =>
      match index_value si, index_value ei with
      | Some s, Some e => Some (PyStr.slice txt s e)
      | _, _ => None
      end
  | _, _ => None
  end.

Definition segment_parts (txt : string) (segs : list TextSegment)
  : list string :=
  flat_map (fun seg => match segment_text txt seg with
                       | Some p => [p]
                       | None => []
                       end) segs.

(** [_extract_text_from_anchor(document, text_anchor)]; a [None] anchor
    is an object without [content] and [text_segments]. *)
Definition _extract_text_from_anchor (document : Document)
  (text_anchor : option TextAnchor) : string :=
  match text_anchor with
  | None => ""
  | Some a =>
      if PyStr.nonempty (content a) then content a
      else match text_segments a, text document with
           | _ :: _, Some txt =>
               PyStr.join " " (segment_parts txt (text_segments a))
           | _, _ => ""
           end
  end.

(* ================================================================== *)
(** ** Field resolver *)
(* ================================================================== *)

(** Truthiness of an anchor message: some field of it is set. *)
Definition anchor_truthy (a : TextAnchor) : bool :=
  PyStr.nonempty (content a) ||
  match text_segments a with [] => false | _ :: _ => true end.

(** The three [if]s run on an entry of the field table; [None] when none
    of them returns. *)
Definition field_entry_value (document : Document) (fv : FormField)
  : option string :=
  let by_value := match ff_value fv with
                  | Some (TextContent s) => Some s
                  | Some (Plain s) => Some s
                  | None => None
                  end in
  match ff_text_anchor fv with
  | Some a => if anchor_truthy a
              then Some (_extract_text_from_anchor document (Some a))
              else by_value
  | None => by_value
  end.

(** [d[key]] when [key in d] *)
Fixpoint dict_get {A : Type} (key : string) (d : list (string * A))
  : option A :=
  match d with
  | [] => None
  | (k, v) :: r => if String.eqb k key then Some v else dict_get key r
  end.

(** Stage 1: the entry under the exact key. *)
Definition exact_key_stage (document : Document) (field_name : string)
  : option string :=
  match dict_get field_name (form_fields document) with
  | Some fv => field_entry_value document fv
  | None => None
  end.

(** Stage 2: the entries whose key equals the name up to case, in order. *)
Fixpoint folded_key_scan (document : Document) (fn : string)
  (items : list (string * FormField)) : option string :=
  match items with
  | [] => None
  | (k, v) :: r =>
      if String.eqb (PyStr.lower k) fn
      then match field_entry_value document v with
           | Some s => Some s
           | None => folded_key_scan document fn r
           end
      else folded_key_scan document fn r
  end.

Definition folded_key_stage (document : Document) (field_name : string)
  : option string :=
  folded_key_scan document (PyStr.lower field_name) (form_fields document).

Definition entity_matches (e : Entity) (field_name : string) : bool :=
  match type_ e with
  | Some ty => String.eqb ty field_name
               || String.eqb (PyStr.lower ty) (PyStr.lower field_name)
  | None => false
  end.

(** Stage 3: the entities of that type, in order. *)
Fixpoint entity_stage (document : Document) (field_name : string)
  (es : list Entity) : option string :=
  match es with
  | [] => None
  | e :: r =>
      if entity_matches e field_name then
        if PyStr.nonempty (mention_text e) then Some (mention_text e)
        else match e_text_anchor e with
             | Some a =>
                 if anchor_truthy a then
                   let t := _extract_text_from_anchor document (Some a) in
                   if PyStr.nonempty t then Some t
                   else entity_stage document field_name r
                 else entity_stage document field_name r
             | None => entity_stage document field_name r
             end
      else entity_stage document field_name r
  end.

(** [_extract_field(document, field_name)].  The guard on a falsy
    document returns what the stages return on an empty one. *)
Definition _extract_field (document : Document) (field_name : string)
  : string :=
  match exact_key_stage document field_name with
  | Some s => s
  | None =>
      match folded_key_stage document field_name with
      | Some s => s
      | None =>
          match entity_stage document field_name (entities document) with
          | Some s => s
          | None => ""
          end
      end
  end.

(* ================================================================== *)
(** ** Table classifier *)
(* ================================================================== *)

(** [_infer_table_section(header_cells)] *)
Definition _infer_table_section (header_cells : list string)
  : option string :=
  match header_cells with
  | [] => None
  | _ :: _ =>
      let h := PyStr.join " " header_cells in
      if PyStr.contains "deposit" h
         && (PyStr.contains "addition" h || PyStr.contains "additions" h)
      then Some "DEPOSITS_AND_ADDITIONS"
      else if PyStr.contains "electronic" h && PyStr.contains "withdrawal" h
      then Some "ELECTRONIC_WITHDRAWALS"
      else if PyStr.contains "checks paid" h || PyStr.contains "check paid" h
      then Some "CHECKS_PAID"
      else if (PyStr.contains "atm" h || PyStr.contains "debit card" h)
              && PyStr.contains "withdrawal" h
      then Some "ATM_DEBIT_WITHDRAWALS"
      else if PyStr.contains "fee" h then Some "FEES"
      else None
  end.

(** The four column roles. *)
Inductive Role : Type := RDate | RDescription | RAmount | RType.

Definition role_eqb (a b : Role) : bool :=
  match a, b with
  | RDate, RDate | RDescription, RDescription
  | RAmount, RAmount | RType, RType => true
  | _, _ => false
  end.

Definition role_words (r : Role) : list string :=
  match r with
  | RDate => ["date"; "transaction date"; "posted date"]
  | RDescription => ["description"; "memo"; "details"]
  | RAmount => ["amount"; "debit"; "credit"; "withdrawal"; "deposit"]
  | RType => ["type"; "transaction type"]
  end.

(** A header cell matches a role: it contains one of the role's words. *)
Definition matches_role (r : Role) (h : string) : bool :=
  PyStr.any_in (role_words r) h.

(** The branch of the [if]/[elif] chain a header cell takes. *)
Definition header_role (h : string) : option Role :=
  if matches_role RDate h then Some RDate
  else if matches_role RDescription h then Some RDescription
  else if matches_role RAmount h then Some RAmount
  else if matches_role RType h then Some RType
  else None.

(** [date_col], [desc_col], [amount_col], [type_col] *)
Record Columns : Type :=
  { date_col : option nat;
    desc_col : option nat;
    amount_col : option nat;
    type_col : option nat }.

Definition no_columns : Columns :=
  {| date_col := None; desc_col := None;
     amount_col := None; type_col := None |}.

Definition column (r : Role) (cols : Columns) : option nat :=
  match r with
  | RDate => date_col cols
  | RDescription => desc_col cols
  | RAmount => amount_col cols
  | RType => type_col cols
  end.

(** One turn of the loop over [enumerate(header_cells)]. *)
Definition assign_column (cols : Columns) (ih : nat * string) : Columns :=
  let (i, h) := ih in
  match header_role h with
  | Some RDate =>
      {| date_col := Some i; desc_col := desc_col cols;
         amount_col := amount_col cols; type_col := type_col cols |}
  | Some RDescription =>
      {| date_col := date_col cols; desc_col := Some i;
         amount_col := amount_col cols; type_col := type_col cols |}
  | Some RAmount =>
      {| date_col := date_col cols; desc_col := desc_col cols;
         amount_col := Some i; type_col := type_col cols |}
  | Some RType =>
      {| date_col := date_col cols; desc_col := desc_col cols;
         amount_col := amount_col cols; type_col := Some i |}
  | None => cols
  end.

Definition enumerate {A : Type} (l : list A) : list (nat * A) :=
  combine (List.seq 0 (List.length l)) l.

Definition infer_columns (header_cells : list string) : Columns :=
  fold_left assign_column (enumerate header_cells) no_columns.

(* ================================================================== *)
(** ** Transaction extractor *)
(* ================================================================== *)

(** The lowered content of the header cells that have an anchor, all
    header rows one after the other. *)
Definition row_header_cells (hr : Row) : list string :=
  flat_map (fun c => match layout_text_anchor c with
                     | Some a => [PyStr.lower (content a)]
                     | None => []
                     end) hr.

Definition header_cells_of (table : Table) : list string :=
  flat_map row_header_cells (header_rows table).

(** The text of a body cell. *)
Definition cell_text (c : Cell) : string :=
  match layout_text_anchor c with
  | Some a => PyStr.strip (content a)
  | None => ""
  end.

(** [cells[col]] under the guard [col is not None and col < len(cells)]. *)
Definition col_cell (col : option nat) (cells : list string)
  : option string :=
  match col with
  | Some i => nth_error cells i
  | None => None
  end.

(** [float(s.replace('$', '').replace(',', '').strip())] *)
Definition parse_amount (s : string) : option PyFloat.t :=
  PyFloat.of_string (PyStr.strip (PyStr.remove_char "," (PyStr.remove_char "$" s))).

Definition zero : PyFloat.t := PyFloat.of_Z 0.

(** The dictionary built for one body row, when it is appended. *)
Definition row_transaction (section : option string) (cols : Columns)
  (cells : list string) : option Transaction :=
  match col_cell (amount_col cols) cells with
  | Some a =>
      match parse_amount a with
      | Some amt =>
          Some {| tx_date := option_map DateStr (col_cell (date_col cols) cells);
                  tx_description := col_cell (desc_col cols) cells;
                  tx_amount := Some (PyFloat.fabs amt);
                  tx_type :=
                    Some (match col_cell (type_col cols) cells with
                          | Some ty =>
                              if PyStr.contains "credit" (PyStr.lower ty)
                                 || PyStr.contains "deposit" (PyStr.lower ty)
                              then "CREDIT" else "DEBIT"
                          | None =>
                              if PyFloat.geb amt zero then "CREDIT" else "DEBIT"
                          end);
                  tx_section :=
                    Some (match section with
                          | Some s => s
                          | None => if PyFloat.geb amt zero
                                    then "DEPOSITS_AND_ADDITIONS"
                                    else "WITHDRAWALS"
                          end) |}
      | None => None
      end
  | None => None
  end.

Definition table_transactions (table : Table) : list Transaction :=
  let header_cells := header_cells_of table in
  let section := _infer_table_section header_cells in
  let cols := infer_columns header_cells in
  flat_map (fun row =>
              match row with
              | [] => []
              | _ :: _ =>
                  match row_transaction section cols (map cell_text row) with
                  | Some tx => [tx]
                  | None => []
                  end
              end)
           (body_rows table).

(** [_extract_transactions(document)] *)
Definition _extract_transactions (document : Document) : list Transaction :=
  flat_map (fun page => flat_map table_transactions (tables page))
           (pages document).

(* ================================================================== *)
(** ** Text fallback parser *)
(* ================================================================== *)

(** [float(a.replace(',', ''))] *)
Definition amount_value (a : string) : option PyFloat.t :=
  PyFloat.of_string (PyStr.remove_char "," a).

Definition in_amount_range (f : PyFloat.t) : bool :=
  PyFloat.leb (PyFloat.of_Z 10) (PyFloat.fabs f)
  && PyFloat.leb (PyFloat.fabs f) (PyFloat.of_Z 10000000).

(** The list comprehension that builds [valid]; [None] when a [float]
    in it raises. *)
Fixpoint valid_candidates (ams : list string) : option (list string) :=
  match ams with
  | [] => Some []
  | a :: r =>
      match amount_value a with
      | None => None
      | Some f =>
          match valid_candidates r with
          | None => None
          | Some vs => Some (if in_amount_range f then a :: vs else vs)
          end
      end
  end.

(** [valid], with the [except] branch. *)
Definition valid_amounts (ams : list string) : list string :=
  match valid_candidates ams with
  | Some vs => vs
  | None => []
  end.

Definition abs_key (a : string) : option PyFloat.t :=
  option_map PyFloat.fabs (amount_value a).

(** [x > y] *)
Definition gtb (x y : PyFloat.t) : bool :=
  PyFloat.leb y x && negb (PyFloat.leb x y).

(** [max(best :: rest, key=...)]: the first element of greatest key. *)
Fixpoint max_from (best : string) (kbest : PyFloat.t) (rest : list string)
  : option string :=
  match rest with
  | [] => Some best
  | x :: r =>
      match abs_key x with
      | None => None
      | Some kx => if gtb kx kbest then max_from x kx r
                   else max_from best kbest r
      end
  end.

Definition max_by_abs (valid : list string) : option string :=
  match valid with
  | [] => None
  | v :: vs => match abs_key v with
               | Some k => max_from v k vs
               | None => None
               end
  end.

Definition text_formats : list string :=
  ["%m/%d/%Y"; "%m-%d-%Y"; "%m/%d/%y"; "%m/%d"].

(** The loop over the formats: the date of the first format that parses
    [date_str], given the current year when the format has none. *)
Fixpoint first_text_date (now : DateTime.t) (date_str : string)
  (fmts : list string) : option DateTime.t :=
  match fmts with
  | [] => None
  | fmt :: r =>
      match DateTime.strptime date_str fmt with
      | Some d =>
          if negb (PyStr.contains "%Y" fmt) && negb (PyStr.contains "%y" fmt)
          then let d' := DateTime.replace_year d (DateTime.year now) in
               if DateTime.valid d' then Some d'
               else first_text_date now date_str r
          else Some d
      | None => first_text_date now date_str r
      end
  end.

(** The body of the loop over the lines. *)
Definition parse_line (now : DateTime.t) (raw : string) : list Transaction :=
  let line := PyStr.strip raw in
  if PyStr.len line <? 5 then []
  else
    match Re.search Re.date_re line, Re.findall_amounts line 0 with
    | Some dm, (_ :: _) as ams =>
        match valid_amounts ams with
        | [] => []
        | valid =>
            match max_by_abs valid with
            | Some amt_str =>
                match abs_key amt_str with
                | Some amt =>
                    let at_ := PyStr.rfind amt_str line in
                    let desc :=
                      if Re.m_end dm <? at_
                      then PyStr.strip
                             (PyStr.slice line (Some (Re.m_end dm)) (Some at_))
                      else "" in
                    let tx_type :=
                      if PyStr.contains "deposit" (PyStr.lower desc)
                         || PyStr.contains "credit" (PyStr.lower desc)
                      then "CREDIT" else "DEBIT" in
                    match first_text_date now (Re.m_group dm) text_formats with
                    | Some d =>
                        [{| tx_date := Some (DateObj d);
                            tx_description :=
                              Some (PyStr.slice desc None (Some 200));
                            tx_amount := Some amt;
                            tx_type := Some tx_type;
                            tx_section := None |}]
                    | None => []
                    end
                | None => []
                end
            | None => []
            end
        end
    | _, _ => []
    end.

(** [_parse_transactions_from_text(text)]; [now] is [datetime.now()]. *)
Definition _parse_transactions_from_text (now : DateTime.t) (text : string)
  : list Transaction :=
  if PyStr.nonempty text
  then flat_map (parse_line now) (PyStr.split "010" text)
  else [].

(* ================================================================== *)
(** ** Record normalizer *)
(* ================================================================== *)

(** The extractors [process_bank_statement] calls, in call order. *)
Inductive Call : Type :=
| CallExtractTransactions
| CallExtractDailyBalances
| CallParseTransactionsFromText (text : string).

Definition is_fallback_call (c : Call) : bool :=
  match c with
  | CallParseTransactionsFromText _ => true
  | _ => false
  end.

(** The statement dictionary.  [daily_balances] comes from the balance
    extractor alone and is left out. *)
Record StatementRecord : Type :=
  { account_number : string;
    routing_number : string;
    bank_name : string;
    statement_period_start : string;
    statement_period_end : string;
    opening_balance : string;
    closing_balance : string;
    transactions : list Transaction }.

(** One transaction of [_serialize_transactions]: a [datetime] becomes
    its ISO date, a string stays. *)
Definition serialize_transaction (tx : Transaction) : Transaction :=
  {| tx_date := match tx_date tx with
                | Some (DateObj d) => Some (DateStr (DateTime.isoformat d))
                | other => other
                end;
     tx_description := tx_description tx;
     tx_amount := tx_amount tx;
     tx_type := tx_type tx;
     tx_section := tx_section tx |}.

Definition _serialize_transactions (txs : list Transaction)
  : list Transaction :=
  map serialize_transaction txs.

(** The transactions of the statement before serialization, with the
    extractors that ran to obtain them and the balances. *)
Definition statement_transactions (now : DateTime.t) (document : Document)
  : list Transaction * list Call :=
  let transactions := _extract_transactions document in
  let calls := [CallExtractTransactions; CallExtractDailyBalances] in
  match transactions, text document with
  | [], Some t =>
      if PyStr.nonempty t
      then (_parse_transactions_from_text now t,
            (calls ++ [CallParseTransactionsFromText t])%list)
      else (transactions, calls)
  | _, _ => (transactions, calls)
  end.

(** [process_bank_statement], from the annotated document on. *)
Definition process_bank_statement (now : DateTime.t) (document : Document)
  : StatementRecord * list Call :=
  let (transactions, calls) := statement_transactions now document in
  let field := _extract_field document in
  ({| account_number := field "account_number";
      routing_number := field "routing_number";
      bank_name := field "bank_name";
      statement_period_start :=
        PyStr.or_else (field "statement_start_date")
          (PyStr.or_else (field "statement_period_start")
                         (field "period_start"));
      statement_period_end :=
        PyStr.or_else (field "statement_end_date")
          (PyStr.or_else (field "statement_period_end")
                         (field "period_end"));
      opening_balance :=
        PyStr.or_else (field "starting_balance")
          (PyStr.or_else (field "opening_balance")
                         (field "beginning_balance"));
      closing_balance :=
        PyStr.or_else (field "ending_balance") (field "closing_balance");
      transactions := _serialize_transactions transactions |},
   calls).

Definition date_formats : list string :=
  ["%Y-%m-%d"; "%m/%d/%Y"; "%d/%m/%Y"; "%Y/%m/%d"; "%m-%d-%Y"; "%d-%m-%Y";
   "%B %d, %Y"; "%b %d, %Y"; "%d %B %Y"].

(** The loop over [date_formats]: the first format that parses. *)
Fixpoint first_start_date (s : string) (fmts : list string)
  : option DateTime.t :=
  match fmts with
  | [] => None
  | fmt :: r =>
      match DateTime.strptime s fmt with
      | Some d => Some d
      | None => first_start_date s r
      end
  end.

(** [int(x)] on an exact value: truncation towards zero. *)
Definition Qtrunc (q : Q) : Z := Z.quot (Qnum q) (Zpos (Qden q)).

(** [int((now - start_date).days / 30.44)].  The quotient is taken
    exactly: over the day counts two dates can differ by, the binary64
    quotient truncates to the same integer. *)
Definition months_since (now start_date : DateTime.t) : Z :=
  Qtrunc (inject_Z (DateTime.days_between now start_date) / (3044 # 100)).

(** Stage (a): what the block under [if extracted.get("start_date")]
    stores; [None] when it stores nothing. *)
Definition months_from_start_date (now : DateTime.t) (start_date : string)
  : option Z :=
  if PyStr.nonempty start_date
  then option_map (months_since now)
         (first_start_date (PyStr.strip start_date) date_formats)
  else None.

(** What the block under [if tib] does: it stores a number, stores
    nothing, or raises.  [int(val)] raises [OverflowError] on an infinite
    [val], which a numeric token of more than 308 digits gives, and
    nothing around it catches the exception. *)
Inductive TextMonths : Type :=
| StoresNothing
| Stores (m : Z)
| Raises.

Definition text_months (tib : string) : TextMonths :=
  if PyStr.nonempty tib then
    match Re.search Re.number_re tib with
    | Some first =>
        match PyFloat.of_string (Re.m_group first) with
        | Some val =>
            match (if PyStr.contains "year" (PyStr.lower tib)
                   then PyFloat.mul_pos val 12 else val) with
            | PyFloat.Fin v => Stores (Qtrunc v)
            | _ => Raises
            end
        | None => Raises
        end
    | None => StoresNothing
    end
  else StoresNothing.

(** Stage (b): what the block under [if tib] stores. *)
Definition months_from_text (tib : string) : option Z :=
  match text_months tib with
  | Stores m => Some m
  | _ => None
  end.

(** Truthiness of [extracted.get("time_in_business_months")]. *)
Definition months_truthy (m : option Z) : bool :=
  match m with
  | Some z => negb (z =? 0)
  | None => false
  end.

Record FormRecord : Type :=
  { business_name : string;
    dba : string;
    ein : string;
    owner_name : string;
    owner_ssn : string;
    address : string;
    phone : string;
    email : string;
    industry : string;
    naics_code : string;
    time_in_business_months : option Z;
    start_date : string;
    requested_amount : string;
    business_type : string }.

(** The free-text field stage (b) reads. *)
Definition time_in_business_text (document : Document) : string :=
  PyStr.or_else (_extract_field document "time_in_business")
    (PyStr.or_else (_extract_field document "time_in_business_months")
                   (_extract_field document "tib")).

(** The function raises instead of returning: stage (b) runs and its
    [int(val)] raises. *)
Definition form_data_raises (now : DateTime.t) (document : Document)
  : bool :=
  let start := PyStr.or_else (_extract_field document "start_date")
                 (_extract_field document "business_start_date") in
  negb (months_truthy (months_from_start_date now start))
  && match text_months (time_in_business_text document) with
     | Raises => true
     | _ => false
     end.

(** The value of [time_in_business_months] when the function returns. *)
Definition computed_months (now : DateTime.t) (document : Document)
  (start : string) : option Z :=
  let stored := months_from_start_date now start in
  if months_truthy stored then stored
  else match months_from_text (time_in_business_text document) with
       | Some v => Some v
       | None => stored
       end.

(** [_extract_form_data(document)]: the dictionary returned, when the
    function returns ([form_data_raises] tells when it does not). *)
Definition _extract_form_data (now : DateTime.t) (document : Document)
  : FormRecord :=
  let field := _extract_field document in
  let start := PyStr.or_else (field "start_date")
                             (field "business_start_date") in
  {| business_name := PyStr.or_else (field "business_name")
                                    (field "company_name");
     dba := PyStr.or_else (field "dba") (field "doing_business_as");
     ein := PyStr.or_else (field "ein") (field "tax_id");
     owner_name := PyStr.or_else (field "owner_name") (field "owner");
     owner_ssn := PyStr.or_else (field "owner_ssn") (field "ssn");
     address := PyStr.or_else (field "address") (field "business_address");
     phone := PyStr.or_else (field "phone") (field "phone_number");
     email := PyStr.or_else (field "email") (field "email_address");
     industry := PyStr.or_else (field "industry") (field "business_type");
     naics_code := PyStr.or_else (field "naics_code") (field "naics");
     time_in_business_months := computed_months now document start;
     start_date := start;
     requested_amount := PyStr.or_else (field "requested_amount")
                                       (field "funding_amount");
     business_type := PyStr.or_else (field "business_type")
                                    (field "entity_type") |}.

(* ================================================================== *)
(** ** Statements of the specification and the inputs they are tried on *)
(* ================================================================== *)

(** A cell with inline content, and one anchored by a single segment. *)
Definition inline_cell (s : string) : Cell :=
  {| layout_text_anchor := Some {| content := s; text_segments := [] |} |}.

Definition span (a b : Z) : TextSegment :=
  {| start_index := Some (IdxInt a); end_index := Some (IdxInt b) |}.

Definition segment_cell (a b : Z) : Cell :=
  {| layout_text_anchor :=
       Some {| content := ""; text_segments := [span a b] |} |}.

Definition empty_document : Document :=
  {| text := None; form_fields := []; entities := []; pages := [] |}.

Definition text_document (t : string) : Document :=
  {| text := Some t; form_fields := []; entities := []; pages := [] |}.

Definition table_document (t : option string) (tb : Table) : Document :=
  {| text := t; form_fields := []; entities := [];
     pages := [ {| tables := [tb] |} ] |}.

Definition plain_field (s : string) : FormField :=
  {| ff_text_anchor := None; ff_value := Some (Plain s) |}.

(** The day on which the examples run. *)
Definition a_monday : DateTime.t := DateTime.mk 2024 1 15.

(** The line of the fallback-parser scenario. *)
Definition payroll_line : string := "03/14/2023 DEPOSIT PAYROLL $1,234.56".

(** The transaction the scenario expects of that line. *)
Definition payroll_expected (tx : Transaction) : Prop :=
  tx_date tx = Some (DateObj (DateTime.mk 2023 3 14))
  /\ tx_description tx = Some "DEPOSIT PAYROLL"
  /\ tx_amount tx = Some (PyFloat.dec 123456 2)
  /\ tx_type tx = Some "CREDIT".

(** Column [i] is the earliest column whose header matches role [r]. *)
Definition earliest_match (r : Role) (hs : list string) (i : nat) : Prop :=
  (exists h, nth_error hs i = Some h /\ matches_role r h = true)
  /\ forall j h, (j < i)%nat -> nth_error hs j = Some h ->
                 matches_role r h = false.

(** Column [i] is the last column whose header takes the branch of role
    [r] in the chain date, description, amount, type. *)
Definition last_of_role (r : Role) (hs : list string) (i : nat) : Prop :=
  (exists h, nth_error hs i = Some h /\ header_role h = Some r)
  /\ forall j h, (i < j)%nat -> nth_error hs j = Some h ->
                 header_role h <> Some r.

(** Header cells in which the date role is matched twice. *)
Definition two_date_headers : list string := ["date"; "posted date"].

(** A field table whose exact-key entry is empty, beside an entity that
    carries the value. *)
Definition empty_entry_document : Document :=
  {| text := Some "Acme Corp";
     form_fields :=
       [("business_name",
         {| ff_text_anchor := None; ff_value := Some (TextContent "") |})];
     entities :=
       [ {| type_ := Some "business_name";
            mention_text := "Acme Corp";
            e_text_anchor := None |} ];
     pages := [] |}.

(** A table whose amount cell reads [nan]. *)
Definition nan_table : Table :=
  {| header_rows := [[inline_cell "Date"; inline_cell "Amount"]];
     body_rows := [[inline_cell "03/14"; inline_cell "nan"]] |}.

(** A table whose cells are anchored by segments of the document text,
    as the annotation service delivers them. *)
Definition segment_text_of_table : string := "Amount 12.50".

Definition segment_table : Table :=
  {| header_rows := [[segment_cell 0 6]];
     body_rows := [[segment_cell 7 12]] |}.

(** The same table with the text of its cells inline. *)
Definition inline_table : Table :=
  {| header_rows := [[inline_cell "Amount"]];
     body_rows := [[inline_cell "12.50"]] |}.

(** An anchor whose second segment lies beyond the text [abc]. *)
Definition overrun_anchor : TextAnchor :=
  {| content := ""; text_segments := [span 0 3; span 5 9] |}.

(** A form started five days before [a_monday], with a free-text
    duration. *)
Definition recent_start_document : Document :=
  {| text := None;
     form_fields := [("start_date", plain_field "2024-01-10");
                     ("time_in_business", plain_field "5 years")];
     entities := []; pages := [] |}.

(** A table with an empty first header row. *)
Definition empty_first_header_table : Table :=
  {| header_rows := [[]; [inline_cell "Amount"]];
     body_rows := [[inline_cell "5"]] |}.

(** A table with two header rows of two cells. *)
Definition two_header_rows_table : Table :=
  {| header_rows := [[inline_cell "Posted"; inline_cell "Memo"];
                     [inline_cell "Date"; inline_cell "Amount"]];
     body_rows := [[inline_cell "03/14"; inline_cell "12.50";
                    inline_cell "x"; inline_cell "7"]] |}.

(** Every header cell has a text anchor. *)
Definition all_anchored (hrs : list Row) : Prop :=
  Forall (Forall (fun c => layout_text_anchor c <> None)) hrs.

(** The number of cells in the header rows before row [k]. *)
Definition preceding_cells (hrs : list Row) (k : nat) : nat :=
  List.length (List.concat (firstn k hrs)).

(** The label a table row's transaction gets: the table's section or,
    without one, the generic label of the sign of the parsed value. *)
Definition section_label (table : Table) (amt : PyFloat.t) : string :=
  match _infer_table_section (header_cells_of table) with
  | Some s => s
  | None => if PyFloat.geb amt zero then "DEPOSITS_AND_ADDITIONS"
            else "WITHDRAWALS"
  end.

(** [row] is a body row of [table], a table of a page of the document. *)
Definition row_of_document (document : Document) (table : Table)
  (row : Row) : Prop :=
  (exists page, In page (pages document) /\ In table (tables page))
  /\ In row (body_rows table).

(** The dictionary the extractor builds for a body row of a table. *)
Definition row_transaction_of (table : Table) (row : Row)
  : option Transaction :=
  row_transaction (_infer_table_section (header_cells_of table))
                  (infer_columns (header_cells_of table))
                  (map cell_text row).

(** The number parsed from the cell of a row in the amount column. *)
Definition row_amount (table : Table) (row : Row) : option PyFloat.t :=
  match col_cell (amount_col (infer_columns (header_cells_of table)))
                 (map cell_text row) with
  | Some a => parse_amount a
  | None => None
  end.

(** The text the fallback parser is run on, if it runs. *)
Definition fallback_text (document : Document) : option string :=
  match _extract_transactions document, text document with
  | [], Some t => if PyStr.nonempty t then Some t else None
  | _, _ => None
  end.

(* ================================================================== *)
(** ** Balance extractor *)
(* ================================================================== *)

(** A child of an entity as the balance extractor reads it; [None] is an
    attribute the object does not have. *)
Record EntityProperty : Type :=
  { p_type_ : option string; p_mention_text : option string }.

(** An entity as the balance extractor reads it: its type tag, its
    mention text and its [properties].  ([Entity] above carries what the
    field resolver reads.) *)
Record BalanceEntity : Type :=
  { be_type_ : option string;
    be_mention_text : option string;
    be_properties : option (list EntityProperty) }.

(** The parts of the document [_extract_daily_balances] reads. *)
Record BalanceDocument : Type :=
  { bd_entities : list BalanceEntity; bd_pages : list Page }.

(** A balance dictionary; [None] is a key that is not set. *)
Record Balance : Type :=
  { b_description : option string;
    b_date : option TxDate;
    b_balance : option PyFloat.t }.

Definition attr_or_empty (a : option string) : string :=
  match a with Some s => s | None => "" end.

(** One turn of the loop over [e.properties]. *)
Definition property_step (b : Balance) (p : EntityProperty) : Balance :=
  let pt := attr_or_empty (p_type_ p) in
  let pv := attr_or_empty (p_mention_text p) in
  if PyStr.contains "date" (PyStr.lower pt)
  then {| b_description := b_description b;
          b_date := Some (DateStr pv);
          b_balance := b_balance b |}
  else if PyStr.contains "balance" (PyStr.lower pt)
          || PyStr.contains "amount" (PyStr.lower pt)
  then match parse_amount pv with
       | Some f => {| b_description := b_description b;
                      b_date := b_date b;
                      b_balance := Some f |}
       | None => b
       end
  else b.

(** The dictionary built for one entity, when it is appended. *)
Definition entity_balance (e : BalanceEntity) : option Balance :=
  let t := attr_or_empty (be_type_ e) in
  if negb (PyStr.contains "balance" (PyStr.lower t))
     && negb (PyStr.contains "daily" (PyStr.lower t))
  then None
  else
    let b0 := {| b_description := be_mention_text e;
                 b_date := None; b_balance := None |} in
    let b := fold_left property_step
               (match be_properties e with Some ps => ps | None => [] end)
               b0 in
    match b_balance b with
    | Some _ => Some b
    | None => None
    end.

Definition entity_balances (es : list BalanceEntity) : list Balance :=
  flat_map (fun e => match entity_balance e with
                     | Some b => [b]
                     | None => []
                     end) es.

(** [txt]: the lowered header cells, each followed by a blank. *)
Definition balance_header_text (table : Table) : string :=
  String.concat "" (map (fun h => h ++ " ") (header_cells_of table)).

(** The stripped contents of the cells of a row that have an anchor. *)
Definition anchored_texts (row : Row) : list string :=
  flat_map (fun c => match layout_text_anchor c with
                     | Some a => [PyStr.strip (content a)]
                     | None => []
                     end) row.

(** The dictionary built for one body row of a balance table. *)
Definition row_balance (row : Row) : option Balance :=
  if (2 <=? List.length row)%nat then
    match anchored_texts row with
    | d :: v :: _ =>
        match parse_amount v with
        | Some f => Some {| b_description := None;
                            b_date := Some (DateStr d);
                            b_balance := Some f |}
        | None => None
        end
    | _ => None
    end
  else None.

Definition table_balances (table : Table) : list Balance :=
  let txt := balance_header_text table in
  if PyStr.contains "balance" txt || PyStr.contains "ending" txt
  then flat_map (fun row => match row_balance row with
                            | Some b => [b]
                            | None => []
                            end) (body_rows table)
  else [].

(** [_extract_daily_balances(document)] *)
Definition _extract_daily_balances (document : BalanceDocument)
  : list Balance :=
  match bd_entities document with
  | [] => []
  | _ :: _ =>
      match entity_balances (bd_entities document) with
      | [] => flat_map (fun page => flat_map table_balances (tables page))
                       (bd_pages document)
      | balances => balances
      end
  end.

(** [_serialize_balances(balances)] *)
Definition _serialize_balances (balances : list Balance) : list Balance :=
  map (fun b => {| b_description := b_description b;
                   b_date := match b_date b with
                             | Some (DateObj d) =>
                                 Some (DateStr (DateTime.isoformat d))
                             | other => other
                             end;
                   b_balance := b_balance b |}) balances.

(* ================================================================== *)
(** ** Storage paths, processor names and the API key *)
(* ================================================================== *)

(** [s.replace(pat, "")] for a non-empty [pat]: the occurrences are
    removed from left to right without overlap.  [skip] counts the
    characters of the last occurrence still to be dropped. *)
Fixpoint remove_sub (pat s : string) (skip : nat) : string :=
  match s with
  | EmptyString => EmptyString
  | String c r =>
      match skip with
      | S k => remove_sub pat r k
      | O => if PyStr.startswith pat s
             then remove_sub pat r (String.length pat - 1)
             else String c (remove_sub pat r 0)
      end
  end.

(** [a, b = s.split(c, 1)]: the text before and after the first [c];
    [None] is the [ValueError] of unpacking a single part. *)
Fixpoint split_once (c : ascii) (s : string) : option (string * string) :=
  match s with
  | EmptyString => None
  | String a r =>
      if Ascii.eqb a c then Some (EmptyString, r)
      else match split_once c r with
           | Some (x, y) => Some (String a x, y)
           | None => None
           end
  end.

(** The bucket name and blob path [_read_file_content] derives from a
    storage path. *)
Definition storage_location (storage_path : string)
  : option (string * string) :=
  split_once "/" (remove_sub "gs://" storage_path 0).

(** [_read_file_content(storage_path)]; [download bucket blob] stands
    for the storage client's [download_as_bytes]. *)
Definition _read_file_content (download : string -> string -> string)
  (storage_path : string) : option string :=
  match storage_location storage_path with
  | Some (bucket_name, blob_path) => Some (download bucket_name blob_path)
  | None => None
  end.

(** The settings the engine and the HTTP layer read. *)
Record Settings : Type :=
  { GCP_PROJECT_ID : string;
    DOCUMENT_AI_LOCATION : string;
    DOCUMENT_AI_FORM_PROCESSOR : string;
    DOCUMENT_AI_BANK_STATEMENT_PROCESSOR : string;
    API_KEY : string }.

(** [_get_processor_name(processor_type)]; [inr] is the message of the
    [ValueError]. *)
Definition _get_processor_name (settings : Settings)
  (processor_type : string) : string + string :=
  let named (processor_id : string) :=
    if PyStr.nonempty processor_id
    then inl ("projects/" ++ GCP_PROJECT_ID settings ++ "/locations/"
              ++ DOCUMENT_AI_LOCATION settings ++ "/processors/"
              ++ processor_id)
    else inr ("Processor ID not configured for type: " ++ processor_type) in
  if String.eqb processor_type "form"
  then named (DOCUMENT_AI_FORM_PROCESSOR settings)
  else if String.eqb processor_type "bank"
  then named (DOCUMENT_AI_BANK_STATEMENT_PROCESSOR settings)
  else inr ("Unknown processor type: " ++ processor_type).

(** [_verify_api_key(x_api_key)]: [true] when it returns, [false] when
    it raises the 401 error. *)
Definition _verify_api_key (settings : Settings) (x_api_key : option string)
  : bool :=
  if PyStr.nonempty (API_KEY settings)
  then match x_api_key with
       | Some k => PyStr.nonempty k && String.eqb k (API_KEY settings)
       | None => false
       end
  else true.

(** Inputs of the examples below. *)
Definition mixed_case_document : Document :=
  {| text := None;
     form_fields := [("Business_Name", plain_field "Acme Corp")];
     entities := []; pages := [] |}.

Definition balance_table : Table :=
  {| header_rows := [[inline_cell "Date"; inline_cell "Ending Balance"]];
     body_rows := [[inline_cell "03/14"; inline_cell "$1,250.00"]] |}.

Definition daily_entity (amount : string) : BalanceEntity :=
  {| be_type_ := Some "daily_balance";
     be_mention_text := Some "03/14 1,250.00";
     be_properties :=
       Some [ {| p_type_ := Some "date"; p_mention_text := Some "03/14" |};
              {| p_type_ := Some "amount"; p_mention_text := Some amount |} ] |}.

Definition keyed_settings : Settings :=
  {| GCP_PROJECT_ID := "p"; DOCUMENT_AI_LOCATION := "us";
     DOCUMENT_AI_FORM_PROCESSOR := "f1";
     DOCUMENT_AI_BANK_STATEMENT_PROCESSOR := "";
     API_KEY := "secret" |}.

(* ================================================================== *)
(** ** The fallback-parser scenario *)
(* ================================================================== *)

(** The numeric candidates of the scenario line that pass the range
    filter, in line order. *)
Lemma payroll_line_candidates :
  valid_amounts (Re.findall_amounts payroll_line 0) = ["14"; "2023"; "1,234.56"].
Proof. vm_compute. reflexivity. Qed.

(** C1 at the failing input: for the line
    ["03/14/2023 DEPOSIT PAYROLL $1,234.56"] the text fallback parser
    produces one transaction dated 2023-03-14, but the amount expression
    also reads the digits of the date, the year token 2023 passes the
    range filter and is greater than 1234.56, so the amount is 2023, the
    description is empty (the token lies inside the date) and the type
    is DEBIT. *)
Theorem payroll_line_parsed :
  forall now : DateTime.t,
    _parse_transactions_from_text now payroll_line
    = [ {| tx_date := Some (DateObj (DateTime.mk 2023 3 14));
           tx_description := Some "";
           tx_amount := Some (PyFloat.of_Z 2023);
           tx_type := Some "DEBIT";
           tx_section := None |} ]
    /\ max_by_abs (valid_amounts (Re.findall_amounts payroll_line 0))
       = Some "2023"
    /\ PyFloat.leb (PyFloat.dec 123456 2) (PyFloat.of_Z 2023) = true.
Proof.
  intro now. repeat split; vm_compute; reflexivity.
Qed.

(** The one transaction parsed from the line has neither the amount
    1234.56, nor the description [DEPOSIT PAYROLL], nor the type CREDIT
    that the scenario expects. *)
Lemma payroll_line_not_as_expected :
  exists tx,
    _parse_transactions_from_text a_monday payroll_line = [tx]
    /\ tx_amount tx <> Some (PyFloat.dec 123456 2)
    /\ tx_description tx <> Some "DEPOSIT PAYROLL"
    /\ tx_type tx <> Some "CREDIT"
    /\ ~ payroll_expected tx.
Proof.
  eexists. split; [vm_compute; reflexivity |].
  repeat split; try (vm_compute; discriminate).
  intros (_ & Hd & _). vm_compute in Hd. discriminate.
Qed.

(** With a two-digit year the amount is 1234.56, and the description
    keeps the dollar sign, which the amount expression leaves outside
    its group. *)
Lemma payroll_line_short_year :
  forall now : DateTime.t,
    _parse_transactions_from_text now "03/14/23 DEPOSIT PAYROLL $1,234.56"
    = [ {| tx_date := Some (DateObj (DateTime.mk 2023 3 14));
           tx_description := Some "DEPOSIT PAYROLL $";
           tx_amount := Some (PyFloat.dec 123456 2);
           tx_type := Some "CREDIT";
           tx_section := None |} ].
Proof. intro now. vm_compute. reflexivity. Qed.

(* ================================================================== *)
(** ** Field resolution on an empty entry *)
(* ================================================================== *)

(** C2 at a failing input: the exact-key entry of [business_name]
    resolves to the empty string, the entity stage would resolve to
    [Acme Corp], and the resolver returns the empty string. *)
Theorem empty_entry_hides_entity :
  exact_key_stage empty_entry_document "business_name" = Some ""
  /\ entity_stage empty_entry_document "business_name"
       (entities empty_entry_document) = Some "Acme Corp"
  /\ _extract_field empty_entry_document "business_name" = "".
Proof. repeat split; vm_compute; reflexivity. Qed.

(** The entity stage alone does skip an empty resolution: an entity
    whose anchor resolves to nothing leaves the scan to the next one. *)
Lemma entity_stage_skips_empty :
  forall document field_name e r a,
    entity_matches e field_name = true ->
    mention_text e = "" ->
    e_text_anchor e = Some a ->
    _extract_text_from_anchor document (Some a) = "" ->
    entity_stage document field_name (e :: r)
    = entity_stage document field_name r.
Proof.
  intros document field_name e r a Hm Ht Ha Hres.
  cbn [entity_stage]. rewrite Hm, Ht, Ha. cbn [PyStr.nonempty].
  rewrite Hres. cbn [PyStr.nonempty].
  destruct (anchor_truthy a); reflexivity.
Qed.

(* ================================================================== *)
(** ** Amounts *)
(* ================================================================== *)

(** C4 at a failing input: a body cell reading [nan] in the amount
    column yields a transaction whose amount is NaN, which is not
    [>= 0]. *)
Theorem nan_amount_is_kept :
  map tx_amount (_extract_transactions (table_document None nan_table))
  = [Some PyFloat.NaN]
  /\ PyFloat.geb (PyFloat.fabs PyFloat.NaN) zero = false.
Proof. split; vm_compute; reflexivity. Qed.

Lemma fabs_nonneg :
  forall x, PyFloat.is_nan x = false -> PyFloat.geb (PyFloat.fabs x) zero = true.
Proof.
  intros [q | | |] H; try reflexivity; try discriminate.
  unfold PyFloat.geb, PyFloat.leb, zero, PyFloat.of_Z, PyFloat.fabs.
  apply Qle_bool_iff. apply Qabs_nonneg.
Qed.

(** Apart from NaN, the amount of a table row's transaction is [>= 0]. *)
Lemma row_amount_nonneg :
  forall section cols cells tx,
    row_transaction section cols cells = Some tx ->
    exists amt, tx_amount tx = Some (PyFloat.fabs amt)
                /\ (PyFloat.is_nan amt = false ->
                    PyFloat.geb (PyFloat.fabs amt) zero = true).
Proof.
  intros section cols cells tx H. unfold row_transaction in H.
  destruct (col_cell (amount_col cols) cells) as [a|]; [|discriminate].
  destruct (parse_amount a) as [amt|]; [|discriminate].
  injection H as <-. exists amt. split; [reflexivity | apply fabs_nonneg].
Qed.

(* ================================================================== *)
(** ** Cells anchored by segments *)
(* ================================================================== *)

(** C5 at a failing input: the cells of the table are anchored by
    segments of a non-empty document text; the resolver turns them into
    [Amount] and [12.50], the extractor reads them as empty and finds no
    transaction, while the same table with inline content yields one. *)
Theorem segment_cells_read_empty :
  let document := table_document (Some segment_text_of_table) segment_table in
  map (fun c => _extract_text_from_anchor document (layout_text_anchor c))
      [segment_cell 0 6; segment_cell 7 12] = ["Amount"; "12.50"]
  /\ header_cells_of segment_table = [""]
  /\ map cell_text [segment_cell 7 12] = [""]
  /\ _extract_transactions document = []
  /\ map tx_amount
       (_extract_transactions
          (table_document (Some segment_text_of_table) inline_table))
     = [Some (PyFloat.dec 1250 2)].
Proof. repeat split; vm_compute; reflexivity. Qed.

(* ================================================================== *)
(** ** The text-anchor resolver *)
(* ================================================================== *)

(** C8 at a failing input: the second segment lies beyond the text; it
    is not skipped but contributes an empty piece, so the result ends
    with the separator. *)
Theorem overrun_segment_is_joined :
  segment_parts "abc" (text_segments overrun_anchor) = ["abc"; ""]
  /\ _extract_text_from_anchor (text_document "abc") (Some overrun_anchor)
     = "abc ".
Proof. split; vm_compute; reflexivity. Qed.

(** Inline content is returned as it is. *)
Lemma inline_content_verbatim :
  forall document a,
    content a <> "" ->
    _extract_text_from_anchor document (Some a) = content a.
Proof.
  intros document a H. unfold _extract_text_from_anchor.
  destruct (content a); [congruence | reflexivity].
Qed.

(** Without an anchor, or without inline content and document text, the
    result is empty. *)
Lemma absent_anchor_or_text :
  forall document a,
    _extract_text_from_anchor document None = ""
    /\ (content a = "" -> text document = None ->
        _extract_text_from_anchor document (Some a) = "").
Proof.
  intros document a. split; [reflexivity |].
  intros Hc Ht. unfold _extract_text_from_anchor. rewrite Hc, Ht.
  cbn. destruct (text_segments a); reflexivity.
Qed.

(** A segment with a malformed or missing offset contributes nothing. *)
Lemma malformed_segment_skipped :
  forall txt seg segs,
    (start_index seg = None \/ end_index seg = None
     \/ start_index seg = Some IdxBad \/ end_index seg = Some IdxBad) ->
    segment_parts txt (seg :: segs) = segment_parts txt segs.
Proof.
  intros txt seg segs H. unfold segment_parts. cbn [flat_map].
  replace (segment_text txt seg) with (@None string); [reflexivity |].
  unfold segment_text.
  destruct (start_index seg) as [[z| |]|], (end_index seg) as [[z'| |]|];
    cbn; try reflexivity;
    destruct H as [H | [H | [H | H]]]; discriminate.
Qed.

(* ================================================================== *)
(** ** Time in business *)
(* ================================================================== *)

(** C9 at a failing input: the start date parses and stage (a) stores 0
    months, yet the free-text field is consulted and its 60 months are
    the result. *)
Theorem zero_months_overwritten :
  months_from_start_date a_monday "2024-01-10" = Some 0
  /\ months_from_text "5 years" = Some 60
  /\ time_in_business_months
       (_extract_form_data a_monday recent_start_document) = Some 60.
Proof. repeat split; vm_compute; reflexivity. Qed.

(** A non-zero value of stage (a) is final. *)
Lemma nonzero_months_final :
  forall now document start m,
    months_from_start_date now start = Some m -> m <> 0 ->
    computed_months now document start = Some m.
Proof.
  intros now document start m H Hm. unfold computed_months. rewrite H.
  cbn [months_truthy]. destruct (Z.eqb_spec m 0); [contradiction | reflexivity].
Qed.

(* ================================================================== *)
(** ** Column roles *)
(* ================================================================== *)

Section ColumnRoles.

Local Open Scope nat_scope.

Lemma option_role_dec : forall a b : option Role, {a = b} + {a <> b}.
Proof. intros a b. repeat decide equality. Qed.

Lemma column_assign_same :
  forall r cols i h,
    header_role h = Some r -> column r (assign_column cols (i, h)) = Some i.
Proof.
  intros r cols i h H. unfold assign_column. rewrite H.
  destruct r; reflexivity.
Qed.

Lemma column_assign_other :
  forall r cols i h,
    header_role h <> Some r ->
    column r (assign_column cols (i, h)) = column r cols.
Proof.
  intros r cols i h H. unfold assign_column.
  destruct (header_role h) as [r'|]; [|reflexivity].
  destruct r, r'; try reflexivity; exfalso; apply H; reflexivity.
Qed.

(** The loop, one more header cell at the end. *)
Lemma fold_enumerate_snoc :
  forall hs n cols h,
    fold_left assign_column
      (combine (List.seq n (List.length (hs ++ [h])%list)) (hs ++ [h])%list)
      cols
    = assign_column
        (fold_left assign_column (combine (List.seq n (List.length hs)) hs) cols)
        (n + List.length hs, h).
Proof.
  induction hs as [|x hs IH]; intros n cols h.
  - cbn. rewrite Nat.add_0_r. reflexivity.
  - cbn [List.length app List.seq combine fold_left].
    rewrite (IH (S n)). rewrite Nat.add_succ_r. reflexivity.
Qed.

Lemma infer_columns_snoc :
  forall hs h,
    infer_columns (hs ++ [h])%list
    = assign_column (infer_columns hs) (List.length hs, h).
Proof.
  intros hs h. unfold infer_columns, enumerate.
  rewrite fold_enumerate_snoc. reflexivity.
Qed.

Lemma last_of_role_snoc_same :
  forall r hs h i,
    header_role h = Some r ->
    (last_of_role r (hs ++ [h])%list i <-> i = List.length hs).
Proof.
  intros r hs h i Hh. split.
  - intros [[h0 [Hn _]] Hlast].
    assert (Hlt : i < List.length (hs ++ [h])%list)
      by (apply nth_error_Some; congruence).
    rewrite length_app in Hlt. cbn in Hlt.
    destruct (Nat.eq_dec i (List.length hs)) as [|Hne]; [assumption|].
    exfalso. apply (Hlast (List.length hs) h); [lia | | assumption].
    rewrite nth_error_app2 by lia. rewrite Nat.sub_diag. reflexivity.
  - intros ->. split.
    + exists h. split; [|assumption].
      rewrite nth_error_app2 by lia. rewrite Nat.sub_diag. reflexivity.
    + intros j h' Hj Hn. exfalso.
      assert (j < List.length (hs ++ [h])%list)
        by (apply nth_error_Some; congruence).
      rewrite length_app in *. cbn in *. lia.
Qed.

Lemma last_of_role_snoc_other :
  forall r hs h i,
    header_role h <> Some r ->
    (last_of_role r (hs ++ [h])%list i <-> last_of_role r hs i).
Proof.
  intros r hs h i Hh. split.
  - intros [[h0 [Hn Hr]] Hlast].
    assert (Hlt : i < List.length (hs ++ [h])%list)
      by (apply nth_error_Some; congruence).
    rewrite length_app in Hlt. cbn in Hlt.
    destruct (Nat.eq_dec i (List.length hs)) as [->|Hne].
    + rewrite nth_error_app2 in Hn by lia.
      rewrite Nat.sub_diag in Hn. cbn in Hn. congruence.
    + split.
      * exists h0. split; [|assumption].
        rewrite nth_error_app1 in Hn by lia. assumption.
      * intros j h' Hj Hn'. apply (Hlast j h'); [assumption|].
        rewrite nth_error_app1; [assumption|].
        apply nth_error_Some. congruence.
  - intros [[h0 [Hn Hr]] Hlast].
    assert (Hlt : i < List.length hs) by (apply nth_error_Some; congruence).
    split.
    + exists h0. split; [|assumption].
      rewrite nth_error_app1 by lia. assumption.
    + intros j h' Hj Hn'.
      destruct (Nat.lt_ge_cases j (List.length hs)) as [Hjl|Hjl].
      * rewrite nth_error_app1 in Hn' by lia. apply (Hlast j h'); assumption.
      * rewrite nth_error_app2 in Hn' by lia.
        destruct (j - List.length hs) as [|m] eqn:Em; cbn in Hn'.
        -- congruence.
        -- destruct m; discriminate.
Qed.

(** The column of a role after the loop is the last header cell that
    took the role's branch. *)
Lemma infer_columns_last :
  forall hs r i,
    column r (infer_columns hs) = Some i <-> last_of_role r hs i.
Proof.
  induction hs as [|h hs IH] using rev_ind; intros r i.
  - split.
    + destruct r; discriminate.
    + intros [[h [Hn _]] _]. destruct i; discriminate.
  - rewrite infer_columns_snoc.
    destruct (option_role_dec (header_role h) (Some r)) as [Hr|Hr].
    + rewrite column_assign_same by assumption.
      rewrite last_of_role_snoc_same by assumption.
      split; [intros [= <-]; reflexivity | intros ->; reflexivity].
    + rewrite column_assign_other by assumption.
      rewrite last_of_role_snoc_other by assumption.
      apply IH.
Qed.

(** C3, as the code behaves: in the single left-to-right pass over the
    header cells each cell takes the first category it matches (date,
    description, amount, type in that order), and the column of a role
    is the LAST cell that took the role's category: a later such cell
    replaces the earlier one. *)
Theorem last_column_wins :
  forall hs r i,
    column r (infer_columns hs) = Some i <-> last_of_role r hs i.
Proof. exact infer_columns_last. Qed.

(** C3, as the specification states it, fails: both header cells match
    the date role, column 0 is the earliest, and the role's column is
    column 1. *)
Lemma earliest_column_replaced :
  earliest_match RDate two_date_headers 0
  /\ (exists h, nth_error two_date_headers 1 = Some h
                /\ matches_role RDate h = true)
  /\ column RDate (infer_columns two_date_headers) = Some 1
  /\ column RDate (infer_columns two_date_headers) <> Some 0.
Proof.
  split; [|split; [|split]].
  - split.
    + exists "date"%string. split; reflexivity.
    + intros j h Hj. lia.
  - exists "posted date"%string. split; reflexivity.
  - reflexivity.
  - vm_compute. discriminate.
Qed.

End ColumnRoles.

(* ================================================================== *)
(** ** Statement extraction: when the fallback parser runs *)
(* ================================================================== *)

Section Statement.

Variable now : DateTime.t.

Lemma statement_transactions_spec :
  forall document,
    statement_transactions now document
    = match fallback_text document with
      | Some t => (_parse_transactions_from_text now t,
                   [CallExtractTransactions; CallExtractDailyBalances;
                    CallParseTransactionsFromText t])
      | None => (_extract_transactions document,
                 [CallExtractTransactions; CallExtractDailyBalances])
      end.
Proof.
  intro document. unfold statement_transactions, fallback_text.
  destruct (_extract_transactions document) as [|tx txs];
    destruct (text document) as [t|]; try reflexivity.
  destruct (PyStr.nonempty t); reflexivity.
Qed.

Lemma process_calls :
  forall document,
    snd (process_bank_statement now document)
    = snd (statement_transactions now document).
Proof.
  intro document. unfold process_bank_statement.
  destruct (statement_transactions now document); reflexivity.
Qed.

Lemma process_transactions :
  forall document,
    transactions (fst (process_bank_statement now document))
    = _serialize_transactions (fst (statement_transactions now document)).
Proof.
  intro document. unfold process_bank_statement.
  destruct (statement_transactions now document); reflexivity.
Qed.

Lemma nonempty_iff : forall s, PyStr.nonempty s = true <-> s <> "".
Proof.
  intros [|c s]; cbn; split; intro H; congruence.
Qed.

Lemma fallback_text_some :
  forall document t,
    fallback_text document = Some t
    <-> _extract_transactions document = [] /\ text document = Some t
        /\ t <> "".
Proof.
  intros document t. unfold fallback_text.
  destruct (_extract_transactions document) as [|tx txs].
  - destruct (text document) as [t'|].
    + destruct (PyStr.nonempty t') eqn:E.
      * split.
        -- intros [= <-]. repeat split. apply nonempty_iff. assumption.
        -- intros (_ & [= ->] & _). reflexivity.
      * split; [discriminate|].
        intros (_ & [= ->] & Hne). apply nonempty_iff in Hne. congruence.
    + split; [discriminate | intros (_ & H & _); discriminate].
  - split; [|intros (H & _); discriminate].
    destruct (text document); discriminate.
Qed.

(** C7: the text fallback parser is called if and only if the table
    extractor found no transaction and the document text is non-empty;
    its result then replaces the empty list; and whenever a table yields
    a transaction the parser is not called and the output holds the
    table transactions alone. *)
Theorem fallback_only_without_table_transactions :
  forall document,
    let calls := snd (process_bank_statement now document) in
    let out := transactions (fst (process_bank_statement now document)) in
    (existsb is_fallback_call calls = true
     <-> _extract_transactions document = []
         /\ exists t, text document = Some t /\ t <> "")
    /\ (forall t,
          _extract_transactions document = [] ->
          text document = Some t -> t <> "" ->
          In (CallParseTransactionsFromText t) calls
          /\ out = _serialize_transactions
                     (_parse_transactions_from_text now t))
    /\ (_extract_transactions document <> [] ->
        existsb is_fallback_call calls = false
        /\ out = _serialize_transactions (_extract_transactions document)).
Proof.
  intro document. cbv zeta.
  rewrite process_calls, process_transactions, statement_transactions_spec.
  destruct (fallback_text document) as [t|] eqn:E.
  - apply fallback_text_some in E. destruct E as (Hx & Ht & Hne).
    split; [|split].
    + split; [intros _ | reflexivity].
      split; [assumption | exists t; split; assumption].
    + intros t' _ Ht' _. assert (t' = t) as -> by congruence.
      split; [cbn; auto | reflexivity].
    + intro H. contradiction.
  - split; [|split].
    + split; [discriminate|].
      intros (Hx & t & Ht & Hne).
      assert (fallback_text document = Some t) as H
          by (apply fallback_text_some; repeat split; assumption).
      congruence.
    + intros t Hx Ht Hne.
      assert (fallback_text document = Some t) as H
          by (apply fallback_text_some; repeat split; assumption).
      congruence.
    + intros _. split; reflexivity.
Qed.

(* ================================================================== *)
(** ** Section labels *)
(* ================================================================== *)

(** The dictionary of a row, written out: the amount is the absolute
    value of the number parsed from the amount cell, the label that of
    the table and of that number, date and description the texts of
    their cells. *)
Lemma row_transaction_of_eq :
  forall table row tx,
    row_transaction_of table row = Some tx ->
    exists amt,
      row_amount table row = Some amt
      /\ tx_amount tx = Some (PyFloat.fabs amt)
      /\ tx_section tx = Some (section_label table amt)
      /\ tx_date tx
         = option_map DateStr
             (col_cell (date_col (infer_columns (header_cells_of table)))
                       (map cell_text row))
      /\ tx_description tx
         = col_cell (desc_col (infer_columns (header_cells_of table)))
                    (map cell_text row).
Proof.
  intros table row tx H. unfold row_transaction_of, row_transaction in H.
  unfold row_amount.
  destruct (col_cell (amount_col _) _) as [a|]; [|discriminate].
  destruct (parse_amount a) as [amt|]; [|discriminate].
  injection H as <-. exists amt. repeat split.
Qed.

(** Every transaction of the table extractor is the dictionary of a
    body row of a table of the document. *)
Lemma extracted_from_row :
  forall document tx,
    In tx (_extract_transactions document) ->
    exists table row,
      row_of_document document table row
      /\ row_transaction_of table row = Some tx.
Proof.
  intros document tx H. unfold _extract_transactions in H.
  apply in_flat_map in H. destruct H as (page & Hpage & H).
  apply in_flat_map in H. destruct H as (table & Htable & H).
  unfold table_transactions in H.
  apply in_flat_map in H. destruct H as (row & Hrow & H).
  destruct row as [|c row']; [contradiction|].
  destruct (row_transaction _ _ _) as [tx'|] eqn:E; [|contradiction].
  destruct H as [<- | []].
  exists table, (c :: row'). split; [|exact E].
  split; [exists page; split; assumption | assumption].
Qed.

Lemma row_transaction_serialized :
  forall table row tx,
    row_transaction_of table row = Some tx -> serialize_transaction tx = tx.
Proof.
  intros table row tx H. unfold row_transaction_of, row_transaction in H.
  destruct (col_cell (amount_col _) _) as [a|]; [|discriminate].
  destruct (parse_amount a) as [amt|]; [|discriminate].
  injection H as <-. unfold serialize_transaction. cbn.
  destruct (col_cell (date_col _) _); reflexivity.
Qed.

(** Case analysis on the first [match] or [if] of a hypothesis. *)
Ltac break_in H :=
  match type of H with
  | context [match ?x with _ => _ end] => destruct x eqn:?
  | context [if ?b then _ else _] => destruct b eqn:?
  end.

(** No transaction of the text fallback parser has a section. *)
Lemma parsed_transaction_unlabelled :
  forall t tx,
    In tx (_parse_transactions_from_text now t) -> tx_section tx = None.
Proof.
  intros t tx H. unfold _parse_transactions_from_text in H.
  destruct (PyStr.nonempty t); [|contradiction].
  apply in_flat_map in H. destruct H as (line & _ & H).
  unfold parse_line in H.
  repeat (break_in H; try contradiction).
  all: destruct H as [<- | []]; reflexivity.
Qed.

Lemma valid_candidates_in_range :
  forall ams vs,
    valid_candidates ams = Some vs ->
    forall a, In a vs ->
      exists f, amount_value a = Some f /\ in_amount_range f = true.
Proof.
  induction ams as [|a0 ams IH]; intros vs H a Ha.
  - injection H as <-. contradiction.
  - cbn [valid_candidates] in H.
    destruct (amount_value a0) as [f0|] eqn:E0; [|discriminate].
    destruct (valid_candidates ams) as [vs0|]; [|discriminate].
    destruct (in_amount_range f0) eqn:Er; injection H as <-.
    + destruct Ha as [<- | Ha].
      * exists f0. split; assumption.
      * apply (IH vs0); [reflexivity | assumption].
    + apply (IH vs0); [reflexivity | assumption].
Qed.

Lemma max_from_in :
  forall rest best kbest x,
    max_from best kbest rest = Some x -> x = best \/ In x rest.
Proof.
  induction rest as [|y rest IH]; intros best kbest x H; cbn in H.
  - injection H as <-. left. reflexivity.
  - destruct (abs_key y) as [ky|]; [|discriminate].
    destruct (gtb ky kbest); apply IH in H; destruct H as [-> | H];
      cbn [In]; auto.
Qed.

Lemma max_by_abs_in :
  forall valid x, max_by_abs valid = Some x -> In x valid.
Proof.
  intros [|v vs] x H; cbn in H; [discriminate|].
  destruct (abs_key v) as [k|]; [|discriminate].
  apply max_from_in in H. destruct H as [-> | H]; [left | right]; auto.
Qed.

(** The amount of a transaction of the text fallback parser lies in
    [10, 10000000]. *)
Lemma parsed_amount_in_range :
  forall t tx,
    In tx (_parse_transactions_from_text now t) ->
    exists amt,
      tx_amount tx = Some amt
      /\ PyFloat.leb (PyFloat.of_Z 10) amt = true
      /\ PyFloat.leb amt (PyFloat.of_Z 10000000) = true.
Proof.
  intros t tx H. unfold _parse_transactions_from_text in H.
  destruct (PyStr.nonempty t); [|contradiction].
  apply in_flat_map in H. destruct H as (line & _ & H).
  unfold parse_line in H.
  destruct (PyStr.len (PyStr.strip line) <? 5); [contradiction|].
  destruct (Re.search Re.date_re (PyStr.strip line)) as [dm|]; [|contradiction].
  destruct (Re.findall_amounts (PyStr.strip line) 0) as [|a0 ams];
    [contradiction|].
  destruct (valid_amounts (a0 :: ams)) as [|v vs] eqn:Ev; [contradiction|].
  destruct (max_by_abs (v :: vs)) as [amt_str|] eqn:Em; [|contradiction].
  destruct (abs_key amt_str) as [amt|] eqn:Ek; [|contradiction].
  destruct (first_text_date now (Re.m_group dm) text_formats) as [d|];
    [|contradiction].
  destruct H as [<- | []]. exists amt. split; [reflexivity|].
  apply max_by_abs_in in Em.
  unfold valid_amounts in Ev.
  destruct (valid_candidates (a0 :: ams)) as [vs0|] eqn:Ec; [|discriminate].
  subst vs0.
  destruct (valid_candidates_in_range _ _ Ec _ Em) as (f & Hf & Hr).
  unfold abs_key in Ek. rewrite Hf in Ek. injection Ek as <-.
  unfold in_amount_range in Hr. apply andb_true_iff in Hr. exact Hr.
Qed.

(** C6, as the code behaves: a transaction of the output that comes from
    a table is the dictionary built for a body row of that table, and it
    carries the table's inferred section or, when the table has none,
    DEPOSITS_AND_ADDITIONS when the number parsed from the row's amount
    cell is [>= 0] and WITHDRAWALS otherwise; a transaction recovered by
    the text fallback parser carries no section. *)
Theorem output_section_labels :
  forall document tx,
    In tx (transactions (fst (process_bank_statement now document))) ->
    (fallback_text document = None
     /\ exists table row amt,
          row_of_document document table row
          /\ row_transaction_of table row = Some tx
          /\ row_amount table row = Some amt
          /\ tx_section tx = Some (section_label table amt))
    \/ (exists t,
          fallback_text document = Some t
          /\ (exists tx0, In tx0 (_parse_transactions_from_text now t)
                          /\ tx = serialize_transaction tx0)
          /\ tx_section tx = None).
Proof.
  intros document tx H.
  rewrite process_transactions, statement_transactions_spec in H.
  unfold _serialize_transactions in H. apply in_map_iff in H.
  destruct H as (tx0 & <- & Hin).
  destruct (fallback_text document) as [t|]; cbn [fst] in Hin.
  - right. exists t. split; [reflexivity|]. split.
    + exists tx0. split; [assumption | reflexivity].
    + change (tx_section tx0 = None).
      apply (parsed_transaction_unlabelled t). assumption.
  - left. split; [reflexivity|].
    apply extracted_from_row in Hin. destruct Hin as (table & row & Hrow & Htx).
    rewrite (row_transaction_serialized table row tx0 Htx).
    destruct (row_transaction_of_eq table row tx0 Htx)
      as (amt & Hamt & _ & Hsec & _).
    exists table, row, amt. repeat split; try assumption; apply Hrow.
Qed.

End Statement.

(** C6, as the specification states it, fails: the transaction the
    fallback parser recovers from the scenario line reaches the output
    without a section. *)
Lemma fallback_transaction_without_section :
  map tx_section
      (transactions
         (fst (process_bank_statement a_monday (text_document payroll_line))))
  = [None].
Proof. vm_compute. reflexivity. Qed.

(** The labelling at work on a table without a section keyword. *)
Lemma output_section_labels_witness :
  let document := table_document None inline_table in
  let tx := {| tx_date := None; tx_description := None;
               tx_amount := Some (PyFloat.dec 1250 2);
               tx_type := Some "CREDIT";
               tx_section := Some "DEPOSITS_AND_ADDITIONS" |} in
  (fallback_text document = None
   /\ exists table row amt,
        row_of_document document table row
        /\ row_transaction_of table row = Some tx
        /\ row_amount table row = Some amt
        /\ tx_section tx = Some (section_label table amt))
  \/ (exists t,
        fallback_text document = Some t
        /\ (exists tx0, In tx0 (_parse_transactions_from_text a_monday t)
                        /\ tx = serialize_transaction tx0)
        /\ tx_section tx = None).
Proof.
  cbv zeta.
  apply (output_section_labels a_monday (table_document None inline_table)).
  vm_compute. left. reflexivity.
Defined.

(* ================================================================== *)
(** ** Header rows and body rows *)
(* ================================================================== *)

Section HeaderRows.

Local Open Scope nat_scope.

Lemma row_header_cells_length :
  forall hr : Row,
    Forall (fun c => layout_text_anchor c <> None) hr ->
    List.length (row_header_cells hr) = List.length hr.
Proof.
  induction hr as [|c hr IH]; intro H; [reflexivity|].
  inversion H as [|? ? Hc Hr]; subst.
  unfold row_header_cells in *. cbn [flat_map].
  destruct (layout_text_anchor c) as [a|]; [|congruence].
  cbn. rewrite IH by assumption. reflexivity.
Qed.

Lemma row_header_cells_nth :
  forall (hr : Row) j c a,
    Forall (fun c => layout_text_anchor c <> None) hr ->
    nth_error hr j = Some c ->
    layout_text_anchor c = Some a ->
    nth_error (row_header_cells hr) j = Some (PyStr.lower (content a)).
Proof.
  induction hr as [|c0 hr IH]; intros j c a H Hn Ha.
  - destruct j; discriminate.
  - inversion H as [|? ? Hc Hr]; subst.
    unfold row_header_cells in *. cbn [flat_map].
    destruct j as [|j]; cbn in Hn.
    + injection Hn as ->. rewrite Ha. reflexivity.
    + destruct (layout_text_anchor c0) as [a0|]; [|congruence].
      cbn. apply (IH j c a); assumption.
Qed.

(** A header cell sits in the flattened header at its position plus the
    number of cells of the rows before its own. *)
Lemma header_cells_nth :
  forall (hrs : list Row) k j hr c a,
    all_anchored hrs ->
    nth_error hrs k = Some hr ->
    nth_error hr j = Some c ->
    layout_text_anchor c = Some a ->
    nth_error (flat_map row_header_cells hrs) (preceding_cells hrs k + j)
    = Some (PyStr.lower (content a)).
Proof.
  induction hrs as [|hr0 hrs IH]; intros k j hr c a H Hk Hj Ha.
  - destruct k; discriminate.
  - inversion H as [|? ? H0 Hr]; subst.
    cbn [flat_map]. destruct k as [|k]; cbn in Hk.
    + injection Hk as ->. unfold preceding_cells. cbn.
      rewrite nth_error_app1.
      * apply (row_header_cells_nth hr j c a); assumption.
      * rewrite row_header_cells_length by assumption.
        apply nth_error_Some. congruence.
    + unfold preceding_cells. cbn [firstn List.concat].
      rewrite length_app, nth_error_app2;
        rewrite row_header_cells_length by assumption; [|lia].
      replace (List.length hr0 + List.length (List.concat (firstn k hrs)) + j
               - List.length hr0)
        with (preceding_cells hrs k + j) by (unfold preceding_cells; lia).
      apply (IH k j hr c a); assumption.
Qed.

(** C10, as the code behaves: with every header cell anchored, the cell
    at position [j] of header row [k] sits at index
    [preceding_cells + j] of the flattened header; a role inferred from
    it gets that index, and every body row is read at that index of its
    own cells: a position other than [j] as soon as the earlier header
    rows hold a cell, and no cell at all when the index is past the
    row's end. *)
Theorem later_header_row_offset :
  forall table k j hr c a r,
    all_anchored (header_rows table) ->
    nth_error (header_rows table) k = Some hr ->
    nth_error hr j = Some c ->
    layout_text_anchor c = Some a ->
    header_role (PyStr.lower (content a)) = Some r ->
    (forall i h,
        preceding_cells (header_rows table) k + j < i ->
        nth_error (header_cells_of table) i = Some h ->
        header_role h <> Some r) ->
    let idx := preceding_cells (header_rows table) k + j in
    let col := column r (infer_columns (header_cells_of table)) in
    col = Some idx
    /\ forall row : Row,
         col_cell col (map cell_text row) = nth_error (map cell_text row) idx
         /\ (0 < preceding_cells (header_rows table) k -> idx <> j)
         /\ (List.length row <= idx -> col_cell col (map cell_text row) = None).
Proof.
  intros table k j hr c a r Hall Hk Hj Ha Hr Hlast idx col.
  assert (Hcol : col = Some idx).
  { apply infer_columns_last. split; [|exact Hlast].
    exists (PyStr.lower (content a)). split; [|assumption].
    apply (header_cells_nth (header_rows table) k j hr c a); assumption. }
  split; [assumption|].
  intro row. rewrite Hcol. cbn [col_cell]. split; [reflexivity|]. split.
  - subst idx. lia.
  - intro Hlen. apply nth_error_None. rewrite length_map. assumption.
Qed.

(** The offset at work: [Amount] is the second cell of the second header
    row, its index is 3, and the body row is read at its fourth cell. *)
Lemma later_header_row_offset_witness :
  let col := column RAmount
               (infer_columns (header_cells_of two_header_rows_table)) in
  col = Some 3
  /\ forall row : Row,
       col_cell col (map cell_text row) = nth_error (map cell_text row) 3
       /\ (0 < preceding_cells (header_rows two_header_rows_table) 1 -> 3 <> 1)
       /\ (List.length row <= 3 -> col_cell col (map cell_text row) = None).
Proof.
  cbv zeta.
  apply (later_header_row_offset two_header_rows_table 1 1
           [inline_cell "Date"; inline_cell "Amount"] (inline_cell "Amount")
           {| content := "Amount"; text_segments := [] |} RAmount).
  - repeat constructor; discriminate.
  - reflexivity.
  - reflexivity.
  - reflexivity.
  - vm_compute. reflexivity.
  - intros i h Hi Hn. vm_compute in Hi.
    do 4 (destruct i as [|i]; [lia|]). destruct i; discriminate.
Defined.

(** C10, as stated for every table with more than one header row,
    fails: the first header row is empty, [Amount] is the first cell of
    the second, its index is 0, and the body row is read at the cell
    beneath it. *)
Lemma empty_header_row_no_offset :
  List.length (header_rows empty_first_header_table) = 2
  /\ nth_error (header_rows empty_first_header_table) 1
     = Some [inline_cell "Amount"]
  /\ preceding_cells (header_rows empty_first_header_table) 1 = 0
  /\ column RAmount
       (infer_columns (header_cells_of empty_first_header_table)) = Some 0
  /\ map tx_amount (table_transactions empty_first_header_table)
     = [Some (PyFloat.of_Z 5)].
Proof. repeat split; vm_compute; reflexivity. Qed.

End HeaderRows.

(* ================================================================== *)
(** ** Strings: lengths, slices and occurrences *)
(* ================================================================== *)

Section StringFacts.

Local Open Scope nat_scope.

Lemma str_length_app :
  forall a b : string,
    String.length (a ++ b) = String.length a + String.length b.
Proof.
  induction a as [|c a IH]; intro b; cbn; [reflexivity|].
  rewrite IH. reflexivity.
Qed.

Lemma drop_app :
  forall a b : string, PyStr.drop (String.length a) (a ++ b) = b.
Proof.
  induction a as [|c a IH]; intro b; cbn; [destruct b; reflexivity|].
  apply IH.
Qed.

Lemma take_app :
  forall a b : string, PyStr.take (String.length a) (a ++ b) = a.
Proof.
  induction a as [|c a IH]; intro b; cbn; [reflexivity|].
  rewrite IH. reflexivity.
Qed.

Lemma take_length_le :
  forall n (s : string), String.length (PyStr.take n s) <= n.
Proof.
  induction n as [|n IH]; intros [|c s]; cbn; try lia.
  specialize (IH s). lia.
Qed.

(** Slicing a text at the bounds of its middle part gives that part. *)
Lemma slice_middle :
  forall pre mid post : string,
    PyStr.slice (pre ++ mid ++ post)
                (Some (PyStr.len pre))
                (Some (PyStr.len pre + PyStr.len mid)%Z)
    = mid.
Proof.
  intros pre mid post. unfold PyStr.slice, PyStr.clamp, PyStr.len.
  rewrite !str_length_app.
  set (p := String.length pre). set (m := String.length mid).
  set (q := String.length post).
  destruct (Z.ltb_spec (Z.of_nat p) 0); [lia|].
  destruct (Z.ltb_spec (Z.of_nat p + Z.of_nat m) 0); [lia|].
  replace (Z.to_nat (Z.max 0 (Z.min (Z.of_nat (p + (m + q))) (Z.of_nat p))))
    with p by lia.
  replace (Z.to_nat
             (Z.max 0 (Z.min (Z.of_nat (p + (m + q)))
                             (Z.of_nat p + Z.of_nat m))
              - Z.max 0 (Z.min (Z.of_nat (p + (m + q))) (Z.of_nat p))))
    with m by lia.
  subst p m. rewrite drop_app, take_app. reflexivity.
Qed.

Lemma startswith_iff :
  forall needle hay,
    PyStr.startswith needle hay = true <-> exists post, hay = needle ++ post.
Proof.
  induction needle as [|a n IH]; intro hay.
  - split; [intros _; exists hay; reflexivity | destruct hay; reflexivity].
  - destruct hay as [|b h]; cbn.
    + split; [discriminate | intros [post H]; discriminate].
    + rewrite andb_true_iff, Ascii.eqb_eq, IH. split.
      * intros [-> [post ->]]. exists post. reflexivity.
      * intros [post [= -> ->]]. split; [reflexivity | exists post; reflexivity].
Qed.

(** [needle in hay] holds exactly when [hay] is some text, the needle,
    and some text. *)
Lemma contains_iff :
  forall needle hay,
    PyStr.contains needle hay = true
    <-> exists pre post, hay = pre ++ needle ++ post.
Proof.
  intros needle hay. induction hay as [|c h IH].
  - cbn [PyStr.contains]. rewrite orb_false_r, startswith_iff. split.
    + intros [post H]. exists EmptyString, post. exact H.
    + intros [[|c pre] [post H]]; [exists post; exact H | discriminate].
  - cbn [PyStr.contains]. rewrite orb_true_iff, startswith_iff, IH. split.
    + intros [[post H] | [pre [post H]]].
      * exists EmptyString, post. exact H.
      * exists (String c pre), post. cbn. rewrite H. reflexivity.
    + intros [[|c' pre] [post H]].
      * left. exists post. exact H.
      * right. cbn in H. injection H as -> ->. exists pre, post. reflexivity.
Qed.

Lemma str_app_assoc :
  forall a b c : string, (a ++ b) ++ c = a ++ (b ++ c).
Proof.
  induction a as [|x a IH]; intros b c; cbn; [reflexivity|].
  rewrite IH. reflexivity.
Qed.

(** A text that contains [a ++ b] contains [b]. *)
Lemma contains_suffix :
  forall a b hay,
    PyStr.contains (a ++ b) hay = true -> PyStr.contains b hay = true.
Proof.
  intros a b hay H. apply contains_iff in H. destruct H as (pre & post & ->).
  apply contains_iff. exists (pre ++ a), post.
  rewrite !str_app_assoc. reflexivity.
Qed.

(** A text that contains [a ++ b] contains [a]. *)
Lemma contains_prefix :
  forall a b hay,
    PyStr.contains (a ++ b) hay = true -> PyStr.contains a hay = true.
Proof.
  intros a b hay H. apply contains_iff in H. destruct H as (pre & post & ->).
  apply contains_iff. exists pre, (b ++ post).
  rewrite !str_app_assoc. reflexivity.
Qed.

End StringFacts.

(* ================================================================== *)
(** ** The resolver on a segment inside the text *)
(* ================================================================== *)

(** X1: an anchor without inline content whose single segment spans a
    part of the document text resolves to exactly that part. *)
Theorem segment_resolves_to_substring :
  forall document pre mid post,
    text document = Some (pre ++ mid ++ post) ->
    _extract_text_from_anchor document
      (Some {| content := "";
               text_segments :=
                 [span (PyStr.len pre) (PyStr.len pre + PyStr.len mid)] |})
    = mid.
Proof.
  intros document pre mid post H.
  unfold _extract_text_from_anchor. cbn [content text_segments PyStr.nonempty].
  rewrite H. unfold segment_parts, segment_text. cbn.
  apply slice_middle.
Qed.

Lemma segment_resolves_to_substring_witness :
  _extract_text_from_anchor (text_document "Amount 12.50")
    (Some {| content := "";
             text_segments :=
               [span (PyStr.len "Amount ")
                     (PyStr.len "Amount " + PyStr.len "12.50")] |})
  = "12.50".
Proof.
  apply (segment_resolves_to_substring
           (text_document "Amount 12.50") "Amount " "12.50" "").
  reflexivity.
Defined.

(* ================================================================== *)
(** ** Storage paths and the API key *)
(* ================================================================== *)

Lemma remove_sub_absent :
  forall pat s,
    PyStr.contains pat s = false -> remove_sub pat s 0 = s.
Proof.
  intros pat s. induction s as [|c r IH]; intro H; [reflexivity|].
  cbn [PyStr.contains] in H. apply orb_false_iff in H. destruct H as [Hs Hc].
  cbn [remove_sub]. rewrite Hs. rewrite IH by assumption. reflexivity.
Qed.

Lemma split_once_first :
  forall bucket blob,
    PyStr.contains "/" bucket = false ->
    split_once "/" (bucket ++ "/" ++ blob) = Some (bucket, blob).
Proof.
  induction bucket as [|a r IH]; intros blob H; [reflexivity|].
  cbn [PyStr.contains PyStr.startswith] in H.
  apply orb_false_iff in H. destruct H as [Hs Hc].
  rewrite andb_false_iff in Hs.
  destruct Hs as [Hs | Hs]; [|destruct r; discriminate].
  specialize (IH blob Hc). cbn [append] in IH.
  cbn [append split_once]. rewrite Ascii.eqb_sym, Hs, IH. reflexivity.
Qed.

Lemma split_once_none :
  forall s, PyStr.contains "/" s = false -> split_once "/" s = None.
Proof.
  induction s as [|a r IH]; intro H; [reflexivity|].
  cbn [PyStr.contains PyStr.startswith] in H.
  apply orb_false_iff in H. destruct H as [Hs Hc].
  rewrite andb_false_iff in Hs.
  destruct Hs as [Hs | Hs]; [|destruct r; discriminate].
  cbn [split_once]. rewrite Ascii.eqb_sym, Hs.
  rewrite IH by assumption. reflexivity.
Qed.

(** X2: a storage path [gs://bucket/blob] is taken apart into its bucket
    and blob again, and the blob is downloaded from that bucket, provided
    the bucket holds no slash and the scheme does not occur again in the
    rest of the path. *)
Theorem storage_path_round_trip :
  forall bucket blob,
    PyStr.contains "/" bucket = false ->
    PyStr.contains "gs://" (bucket ++ "/" ++ blob) = false ->
    storage_location ("gs://" ++ bucket ++ "/" ++ blob) = Some (bucket, blob)
    /\ forall download,
         _read_file_content download ("gs://" ++ bucket ++ "/" ++ blob)
         = Some (download bucket blob).
Proof.
  intros bucket blob Hb Hs.
  assert (H : storage_location ("gs://" ++ bucket ++ "/" ++ blob)
              = Some (bucket, blob)).
  { unfold storage_location.
    change (remove_sub "gs://" ("gs://" ++ bucket ++ "/" ++ blob) 0)
      with (remove_sub "gs://" (bucket ++ "/" ++ blob) 0).
    rewrite remove_sub_absent by assumption.
    apply split_once_first. assumption. }
  split; [assumption|].
  intro download. unfold _read_file_content. rewrite H. reflexivity.
Qed.

Lemma storage_path_round_trip_witness :
  storage_location ("gs://" ++ "bucket" ++ "/" ++ "a/b.pdf")
  = Some ("bucket", "a/b.pdf")
  /\ forall download,
       _read_file_content download ("gs://" ++ "bucket" ++ "/" ++ "a/b.pdf")
       = Some (download "bucket" "a/b.pdf").
Proof.
  apply (storage_path_round_trip "bucket" "a/b.pdf"); reflexivity.
Defined.

(** X3: a storage path that names a bucket and nothing after it, with or
    without the scheme, makes [_read_file_content] raise before anything
    is downloaded. *)
Theorem storage_path_without_blob :
  forall bucket download,
    PyStr.contains "/" bucket = false ->
    PyStr.contains "gs://" bucket = false ->
    _read_file_content download ("gs://" ++ bucket) = None
    /\ _read_file_content download bucket = None.
Proof.
  intros bucket download Hb Hs. unfold _read_file_content, storage_location.
  change (remove_sub "gs://" ("gs://" ++ bucket) 0)
    with (remove_sub "gs://" bucket 0).
  rewrite remove_sub_absent by assumption.
  rewrite split_once_none by assumption. split; reflexivity.
Qed.

Lemma storage_path_without_blob_witness :
  _read_file_content (fun _ _ => "") ("gs://" ++ "bucket") = None
  /\ _read_file_content (fun _ _ => "") "bucket" = None.
Proof.
  apply (storage_path_without_blob "bucket" (fun _ _ => "")); reflexivity.
Defined.

(** X4: the API-key gate lets a request pass exactly when no key is
    configured or the header carries the configured key, character for
    character; with a key configured, a request without the header is
    refused. *)
Theorem api_key_gate :
  forall settings x_api_key,
    (_verify_api_key settings x_api_key = true
     <-> API_KEY settings = "" \/ x_api_key = Some (API_KEY settings))
    /\ (API_KEY settings <> "" -> _verify_api_key settings None = false).
Proof.
  intros settings x_api_key. unfold _verify_api_key.
  destruct (API_KEY settings) as [|c key] eqn:E; cbn [PyStr.nonempty].
  - split; [|congruence]. split; [left; reflexivity | reflexivity].
  - split; [|reflexivity].
    destruct x_api_key as [k|].
    + rewrite andb_true_iff, String.eqb_eq. split.
      * intros [_ ->]. right. reflexivity.
      * intros [H | [= ->]]; [discriminate | split; reflexivity].
    + split; [discriminate | intros [H | H]; discriminate].
Qed.

(* ================================================================== *)
(** ** Field resolution: absent fields and the case of a name *)
(* ================================================================== *)

Lemma dict_get_in :
  forall (A : Type) key (d : list (string * A)) v,
    dict_get key d = Some v -> In (key, v) d.
Proof.
  intros A key d v. induction d as [|[k x] d IH]; cbn; [discriminate|].
  destruct (String.eqb_spec k key) as [->|Hne].
  - intros [= ->]. left. reflexivity.
  - intro H. right. apply IH. assumption.
Qed.

Lemma folded_key_scan_none :
  forall document fn items,
    (forall k v, In (k, v) items -> PyStr.lower k <> fn) ->
    folded_key_scan document fn items = None.
Proof.
  intros document fn items. induction items as [|[k v] items IH]; intro H;
    [reflexivity|].
  cbn [folded_key_scan].
  destruct (String.eqb_spec (PyStr.lower k) fn) as [He|_].
  - exfalso. apply (H k v); [left; reflexivity | assumption].
  - apply IH. intros k' v' Hin. apply (H k' v'). right. assumption.
Qed.

(** The test of an entity's type depends on the name up to case only. *)
Lemma entity_matches_lower :
  forall e field_name,
    entity_matches e field_name
    = match type_ e with
      | Some ty => String.eqb (PyStr.lower ty) (PyStr.lower field_name)
      | None => false
      end.
Proof.
  intros e field_name. unfold entity_matches.
  destruct (type_ e) as [ty|]; [|reflexivity].
  destruct (String.eqb_spec ty field_name) as [->|_]; [|reflexivity].
  rewrite String.eqb_refl. reflexivity.
Qed.

Lemma entity_stage_none :
  forall document field_name es,
    (forall e, In e es -> entity_matches e field_name = false) ->
    entity_stage document field_name es = None.
Proof.
  intros document field_name es. induction es as [|e es IH]; intro H;
    [reflexivity|].
  cbn [entity_stage]. rewrite (H e) by (left; reflexivity).
  apply IH. intros e' Hin. apply H. right. assumption.
Qed.

Lemma entity_stage_ext :
  forall document n1 n2 es,
    (forall e, entity_matches e n1 = entity_matches e n2) ->
    entity_stage document n1 es = entity_stage document n2 es.
Proof.
  intros document n1 n2 es H. induction es as [|e es IH]; [reflexivity|].
  cbn [entity_stage]. rewrite H, IH. reflexivity.
Qed.

(** X5: a field that no key of the field table and no entity type names,
    even up to case, resolves to the empty string. *)
Theorem absent_field_resolves_empty :
  forall document field_name,
    (forall k v, In (k, v) (form_fields document) ->
                 PyStr.lower k <> PyStr.lower field_name) ->
    (forall e ty, In e (entities document) -> type_ e = Some ty ->
                  PyStr.lower ty <> PyStr.lower field_name) ->
    _extract_field document field_name = "".
Proof.
  intros document field_name Hk He. unfold _extract_field.
  assert (H1 : exact_key_stage document field_name = None).
  { unfold exact_key_stage.
    destruct (dict_get field_name (form_fields document)) as [fv|] eqn:E;
      [|reflexivity].
    apply dict_get_in in E. exfalso. apply (Hk field_name fv E). reflexivity. }
  assert (H2 : folded_key_stage document field_name = None).
  { unfold folded_key_stage. apply folded_key_scan_none. assumption. }
  assert (H3 : entity_stage document field_name (entities document) = None).
  { apply entity_stage_none. intros e Hin. rewrite entity_matches_lower.
    destruct (type_ e) as [ty|] eqn:E; [|reflexivity].
    apply String.eqb_neq. apply (He e ty); assumption. }
  rewrite H1, H2, H3. reflexivity.
Qed.

Lemma absent_field_resolves_empty_witness :
  _extract_field empty_entry_document "ein" = "".
Proof.
  apply (absent_field_resolves_empty empty_entry_document "ein").
  - intros k v [[= <- <-] | []]. vm_compute. discriminate.
  - intros e ty [<- | []] [= <-]. vm_compute. discriminate.
Defined.

(** X6: two spellings of a field name that differ in case only resolve
    to the same value whenever neither is itself a key of the field
    table. *)
Theorem field_name_case_insensitive :
  forall document n1 n2,
    PyStr.lower n1 = PyStr.lower n2 ->
    dict_get n1 (form_fields document) = None ->
    dict_get n2 (form_fields document) = None ->
    _extract_field document n1 = _extract_field document n2.
Proof.
  intros document n1 n2 Hl H1 H2. unfold _extract_field, exact_key_stage.
  rewrite H1, H2. unfold folded_key_stage. rewrite Hl.
  rewrite (entity_stage_ext document n1 n2); [reflexivity|].
  intro e. rewrite !entity_matches_lower, Hl. reflexivity.
Qed.

Lemma field_name_case_insensitive_witness :
  _extract_field mixed_case_document "business_name"
  = _extract_field mixed_case_document "BUSINESS_NAME".
Proof.
  apply (field_name_case_insensitive mixed_case_document
           "business_name" "BUSINESS_NAME"); reflexivity.
Defined.

(* ================================================================== *)
(** ** Column roles and the rows of a table *)
(* ================================================================== *)

Section Tables.

Local Open Scope nat_scope.

(** X7: two different roles never get the same column, and the column
    of a role is the index of a header cell. *)
Theorem column_roles_distinct :
  forall hs r1 r2 i,
    r1 <> r2 ->
    column r1 (infer_columns hs) = Some i ->
    column r2 (infer_columns hs) <> Some i /\ i < List.length hs.
Proof.
  intros hs r1 r2 i Hne H1.
  apply infer_columns_last in H1. destruct H1 as [[h [Hn Hr]] _].
  split.
  - intro H2. apply infer_columns_last in H2.
    destruct H2 as [[h' [Hn' Hr']] _]. congruence.
  - apply nth_error_Some. congruence.
Qed.

Lemma column_roles_distinct_witness :
  column RAmount (infer_columns ["date"; "amount"]%string) <> Some 0
  /\ 0 < List.length ["date"; "amount"]%string.
Proof.
  apply (column_roles_distinct ["date"; "amount"]%string RDate RAmount 0).
  - discriminate.
  - reflexivity.
Defined.

(** X8: the longer keywords of the date and type roles never decide: a
    header cell matches the date role exactly when it contains [date],
    and the type role exactly when it contains [type]; a cell is given
    the date role exactly when it contains [date]. *)
Theorem role_keywords_reduce :
  forall h,
    matches_role RDate h = PyStr.contains "date" h
    /\ matches_role RType h = PyStr.contains "type" h
    /\ (header_role h = Some RDate <-> PyStr.contains "date" h = true).
Proof.
  intro h.
  assert (Hd : matches_role RDate h = PyStr.contains "date" h).
  { unfold matches_role, PyStr.any_in. cbn [role_words existsb].
    destruct (PyStr.contains "date" h) eqn:E; [reflexivity|].
    destruct (PyStr.contains "transaction date" h) eqn:E1.
    { apply (contains_suffix "transaction " "date") in E1. congruence. }
    destruct (PyStr.contains "posted date" h) eqn:E2.
    { apply (contains_suffix "posted " "date") in E2. congruence. }
    reflexivity. }
  split; [assumption|]. split.
  - unfold matches_role, PyStr.any_in. cbn [role_words existsb].
    destruct (PyStr.contains "type" h) eqn:E; [reflexivity|].
    destruct (PyStr.contains "transaction type" h) eqn:E1.
    { apply (contains_suffix "transaction " "type") in E1. congruence. }
    reflexivity.
  - unfold header_role. rewrite Hd.
    destruct (PyStr.contains "date" h).
    + split; reflexivity.
    + split; [|discriminate].
      destruct (matches_role RDescription h); [discriminate|].
      destruct (matches_role RAmount h); [discriminate|].
      destruct (matches_role RType h); discriminate.
Qed.

Lemma amount_col_absent :
  forall hs,
    (forall h, In h hs -> header_role h <> Some RAmount) ->
    amount_col (infer_columns hs) = None.
Proof.
  intros hs H.
  destruct (amount_col (infer_columns hs)) as [i|] eqn:E; [|reflexivity].
  change (column RAmount (infer_columns hs) = Some i) in E.
  apply infer_columns_last in E. destruct E as [[h [Hn Hr]] _].
  exfalso. apply (H h); [|assumption].
  apply (nth_error_In _ _ Hn).
Qed.

Lemma flat_map_all_nil :
  forall (A B : Type) (f : A -> list B) l,
    (forall x, In x l -> f x = []) -> flat_map f l = [].
Proof.
  intros A B f l. induction l as [|x l IH]; intro H; [reflexivity|].
  cbn. rewrite (H x) by (left; reflexivity).
  apply IH. intros y Hy. apply H. right. assumption.
Qed.

(** X9: a table none of whose header cells takes the amount role, and so
    a table without header rows, yields no transaction, whatever its
    body rows hold. *)
Theorem no_amount_header_no_transactions :
  forall table,
    (forall h, In h (header_cells_of table) -> header_role h <> Some RAmount) ->
    table_transactions table = [].
Proof.
  intros table H. unfold table_transactions.
  apply flat_map_all_nil. intros row _.
  destruct row as [|c row]; [reflexivity|].
  unfold row_transaction. rewrite (amount_col_absent _ H). reflexivity.
Qed.

Lemma no_amount_header_no_transactions_witness :
  table_transactions {| header_rows := [];
                        body_rows := [[inline_cell "03/14";
                                       inline_cell "12.50"]] |} = [].
Proof.
  apply (no_amount_header_no_transactions
           {| header_rows := [];
              body_rows := [[inline_cell "03/14"; inline_cell "12.50"]] |}).
  intros h [].
Defined.

Lemma infer_section_labels :
  forall hs s,
    _infer_table_section hs = Some s ->
    In s ["DEPOSITS_AND_ADDITIONS"; "ELECTRONIC_WITHDRAWALS"; "CHECKS_PAID";
          "ATM_DEBIT_WITHDRAWALS"; "FEES"]%string.
Proof.
  intros hs s H. unfold _infer_table_section in H.
  destruct hs as [|h0 hs]; [discriminate|].
  repeat match type of H with
         | context [if ?b then _ else _] => destruct b
         end;
    try discriminate; injection H as <-; cbn; auto 10.
Qed.

Lemma extracted_shape :
  forall document tx,
    In tx (_extract_transactions document) ->
    (exists amt, tx_amount tx = Some amt)
    /\ (tx_type tx = Some "CREDIT"%string \/ tx_type tx = Some "DEBIT"%string)
    /\ (exists s, tx_section tx = Some s
                  /\ In s ["DEPOSITS_AND_ADDITIONS"; "ELECTRONIC_WITHDRAWALS";
                           "CHECKS_PAID"; "ATM_DEBIT_WITHDRAWALS"; "FEES";
                           "WITHDRAWALS"]%string)
    /\ (forall d, tx_date tx <> Some (DateObj d)).
Proof.
  intros document tx H. unfold _extract_transactions in H.
  apply in_flat_map in H. destruct H as (page & _ & H).
  apply in_flat_map in H. destruct H as (table & _ & H).
  unfold table_transactions in H.
  apply in_flat_map in H. destruct H as (row & _ & H).
  destruct row as [|c row]; [contradiction|].
  destruct (row_transaction _ _ _) as [tx'|] eqn:E; [|contradiction].
  destruct H as [<- | []].
  unfold row_transaction in E.
  destruct (col_cell (amount_col _) _) as [a|]; [|discriminate].
  destruct (parse_amount a) as [amt|]; [|discriminate].
  injection E as <-. cbn [tx_amount tx_type tx_section tx_date].
  split; [exists (PyFloat.fabs amt); reflexivity|]. split; [|split].
  - destruct (col_cell (type_col _) _) as [ty|].
    + destruct (_ || _); [left | right]; reflexivity.
    + match goal with
      | |- context [if ?b then _ else _] => destruct b
      end; [left | right]; reflexivity.
  - destruct (_infer_table_section (header_cells_of table)) as [s|] eqn:Es.
    + exists s. split; [reflexivity|].
      apply infer_section_labels in Es. cbn in Es |- *. intuition.
    + match goal with
      | |- context [if ?b then _ else _] => destruct b
      end; eexists; (split; [reflexivity|]); cbn; auto 10.
  - intros d. destruct (col_cell (date_col _) _); cbn; discriminate.
Qed.

(** X10: every transaction of the table extractor comes from a body row
    of a table of the document; its date and its description are the
    stripped texts of that row's cells in the date and the description
    column, present exactly when the row has such a cell; and it has an
    amount, a type that is CREDIT or DEBIT and one of six section
    labels. *)
Theorem extracted_transaction_shape :
  forall document tx,
    In tx (_extract_transactions document) ->
    exists table row,
      row_of_document document table row
      /\ tx_date tx
         = option_map DateStr
             (col_cell (date_col (infer_columns (header_cells_of table)))
                       (map cell_text row))
      /\ tx_description tx
         = col_cell (desc_col (infer_columns (header_cells_of table)))
                    (map cell_text row)
      /\ (exists amt, tx_amount tx = Some amt)
      /\ (tx_type tx = Some "CREDIT"%string
          \/ tx_type tx = Some "DEBIT"%string)
      /\ (exists s, tx_section tx = Some s
                    /\ In s ["DEPOSITS_AND_ADDITIONS";
                             "ELECTRONIC_WITHDRAWALS"; "CHECKS_PAID";
                             "ATM_DEBIT_WITHDRAWALS"; "FEES";
                             "WITHDRAWALS"]%string).
Proof.
  intros document tx H.
  destruct (extracted_shape document tx H) as (Ha & Hty & Hs & _).
  apply extracted_from_row in H. destruct H as (table & row & Hrow & Htx).
  destruct (row_transaction_of_eq table row tx Htx)
    as (amt & _ & _ & _ & Hd & Hdesc).
  exists table, row. repeat split; try assumption; apply Hrow.
Qed.

Lemma extracted_transaction_shape_witness :
  let tx := {| tx_date := None; tx_description := None;
               tx_amount := Some (PyFloat.dec 1250 2);
               tx_type := Some "CREDIT"%string;
               tx_section := Some "DEPOSITS_AND_ADDITIONS"%string |} in
  exists table row,
    row_of_document (table_document None inline_table) table row
    /\ tx_date tx
       = option_map DateStr
           (col_cell (date_col (infer_columns (header_cells_of table)))
                     (map cell_text row))
    /\ tx_description tx
       = col_cell (desc_col (infer_columns (header_cells_of table)))
                  (map cell_text row)
    /\ (exists amt, tx_amount tx = Some amt)
    /\ (tx_type tx = Some "CREDIT"%string
        \/ tx_type tx = Some "DEBIT"%string)
    /\ (exists s, tx_section tx = Some s
                  /\ In s ["DEPOSITS_AND_ADDITIONS";
                           "ELECTRONIC_WITHDRAWALS"; "CHECKS_PAID";
                           "ATM_DEBIT_WITHDRAWALS"; "FEES";
                           "WITHDRAWALS"]%string).
Proof.
  cbv zeta.
  apply (extracted_transaction_shape (table_document None inline_table)).
  vm_compute. left. reflexivity.
Defined.

Lemma flat_map_length_le :
  forall (A B : Type) (f : A -> list B) (g : A -> nat) l,
    (forall x, List.length (f x) <= g x) ->
    List.length (flat_map f l) <= list_sum (map g l).
Proof.
  intros A B f g l H. induction l as [|x l IH]; [cbn; lia|].
  cbn [flat_map map]. rewrite length_app.
  unfold list_sum in *. cbn [fold_right]. specialize (H x). lia.
Qed.

Lemma list_sum_ones :
  forall (A : Type) (l : list A),
    list_sum (map (fun _ => 1) l) = List.length l.
Proof.
  intros A l. induction l as [|x l IH]; [reflexivity|].
  cbn [map List.length]. unfold list_sum in *. cbn [fold_right]. lia.
Qed.

(** X11: a body row gives at most one transaction: the extractor never
    returns more transactions than the tables of the document have body
    rows. *)
Theorem transactions_bounded_by_rows :
  forall document,
    List.length (_extract_transactions document)
    <= list_sum
         (map (fun page =>
                 list_sum (map (fun table => List.length (body_rows table))
                               (tables page)))
              (pages document)).
Proof.
  intro document. unfold _extract_transactions.
  apply flat_map_length_le. intro page.
  apply flat_map_length_le. intro table. cbv beta.
  unfold table_transactions.
  etransitivity; [apply (flat_map_length_le _ _ _ (fun _ => 1))|].
  - intros [|c row]; [cbn; lia|].
    destruct (row_transaction _ _ _); cbn; lia.
  - rewrite list_sum_ones. apply Nat.le_refl.
Qed.

End Tables.

(* ================================================================== *)
(** ** The transactions of the text fallback parser *)
(* ================================================================== *)

Section FallbackParser.

Variable now : DateTime.t.

Local Open Scope nat_scope.

Lemma strptime_valid :
  forall s fmt d, DateTime.strptime s fmt = Some d -> DateTime.valid d = true.
Proof.
  intros s fmt d H. unfold DateTime.strptime in H.
  destruct (DateTime.compile fmt) as [items|]; [|discriminate].
  destruct (DateTime.match_items items DateTime.no_fields s)
    as [|[f [|c r]] l]; try discriminate.
  match type of H with
  | (if DateTime.valid ?x then _ else _) = _ =>
      destruct (DateTime.valid x) eqn:E; [|discriminate]
  end.
  injection H as <-. exact E.
Qed.

Lemma first_text_date_valid :
  forall s fmts d,
    first_text_date now s fmts = Some d -> DateTime.valid d = true.
Proof.
  intros s fmts d. induction fmts as [|fmt fmts IH]; cbn [first_text_date];
    [discriminate|].
  destruct (DateTime.strptime s fmt) as [d0|] eqn:E; [|exact IH].
  destruct (negb (PyStr.contains "%Y" fmt) && negb (PyStr.contains "%y" fmt)).
  - destruct (DateTime.valid (DateTime.replace_year d0 (DateTime.year now)))
      eqn:Ev; [|exact IH].
    intros [= <-]. exact Ev.
  - intros [= <-]. apply (strptime_valid s fmt). exact E.
Qed.

Lemma slice_head_length :
  forall (s : string) n,
    (0 <= n)%Z ->
    String.length (PyStr.slice s None (Some n)) <= Z.to_nat n.
Proof.
  intros s n Hn. unfold PyStr.slice, PyStr.clamp.
  destruct (Z.ltb_spec n 0); [lia|].
  etransitivity; [apply take_length_le | lia].
Qed.

Lemma parse_line_shape :
  forall line tx,
    In tx (parse_line now line) ->
    exists d desc,
      tx_date tx = Some (DateObj d)
      /\ DateTime.valid d = true
      /\ tx_description tx = Some desc
      /\ String.length desc <= 200
      /\ (tx_type tx = Some "CREDIT"%string
          \/ tx_type tx = Some "DEBIT"%string).
Proof.
  intros line tx H. unfold parse_line in H.
  destruct (PyStr.len (PyStr.strip line) <? 5)%Z; [contradiction|].
  destruct (Re.search Re.date_re (PyStr.strip line)) as [dm|]; [|contradiction].
  destruct (Re.findall_amounts (PyStr.strip line) 0) as [|a0 ams];
    [contradiction|].
  destruct (valid_amounts (a0 :: ams)) as [|v vs]; [contradiction|].
  destruct (max_by_abs (v :: vs)) as [amt_str|]; [|contradiction].
  destruct (abs_key amt_str) as [amt|]; [|contradiction].
  destruct (first_text_date now (Re.m_group dm) text_formats) as [d|] eqn:Ed;
    [|contradiction].
  destruct H as [<- | []]. cbn [tx_date tx_description tx_type].
  eexists. eexists. split; [reflexivity|].
  split; [exact (first_text_date_valid _ _ _ Ed)|].
  split; [reflexivity|]. split.
  - apply (slice_head_length _ 200%Z). lia.
  - match goal with
    | |- context [if ?b then _ else _] => destruct b
    end; [left | right]; reflexivity.
Qed.

(** X12: every transaction of the text fallback parser has a date that
    exists in the calendar, a description of at most 200 characters and
    a type that is CREDIT or DEBIT. *)
Theorem parsed_transaction_shape :
  forall t tx,
    In tx (_parse_transactions_from_text now t) ->
    exists d desc,
      tx_date tx = Some (DateObj d)
      /\ DateTime.valid d = true
      /\ tx_description tx = Some desc
      /\ String.length desc <= 200
      /\ (tx_type tx = Some "CREDIT"%string
          \/ tx_type tx = Some "DEBIT"%string).
Proof.
  intros t tx H. unfold _parse_transactions_from_text in H.
  destruct (PyStr.nonempty t); [|contradiction].
  apply in_flat_map in H. destruct H as (line & _ & H).
  apply (parse_line_shape line). exact H.
Qed.

Lemma parse_line_length :
  forall line, List.length (parse_line now line) <= 1.
Proof.
  intro line. unfold parse_line.
  repeat match goal with
         | |- context [match ?x with _ => _ end] => destruct x
         | |- context [if ?b then _ else _] => destruct b
         end; cbn; lia.
Qed.

(** X13: a line gives at most one transaction: the parser never returns
    more transactions than the text has lines. *)
Theorem parsed_bounded_by_lines :
  forall t,
    List.length (_parse_transactions_from_text now t)
    <= List.length (PyStr.split "010" t).
Proof.
  intro t. unfold _parse_transactions_from_text.
  destruct (PyStr.nonempty t); [|cbn; lia].
  rewrite <- (list_sum_ones _ (PyStr.split "010" t)).
  apply flat_map_length_le. apply parse_line_length.
Qed.

End FallbackParser.

Lemma parsed_transaction_shape_witness :
  let tx := {| tx_date := Some (DateObj (DateTime.mk 2023 3 14));
               tx_description := Some "";
               tx_amount := Some (PyFloat.of_Z 2023);
               tx_type := Some "DEBIT";
               tx_section := None |} in
  exists d desc,
    tx_date tx = Some (DateObj d)
    /\ DateTime.valid d = true
    /\ tx_description tx = Some desc
    /\ (String.length desc <= 200)%nat
    /\ (tx_type tx = Some "CREDIT" \/ tx_type tx = Some "DEBIT").
Proof.
  cbv zeta.
  apply (parsed_transaction_shape a_monday payroll_line).
  vm_compute. left. reflexivity.
Defined.

(* ================================================================== *)
(** ** Serialization *)
(* ================================================================== *)

Lemma serialize_transaction_idempotent :
  forall tx,
    serialize_transaction (serialize_transaction tx) = serialize_transaction tx.
Proof.
  intro tx. unfold serialize_transaction. cbn.
  destruct (tx_date tx) as [[s|d]|]; reflexivity.
Qed.

Lemma serialize_transaction_string_date :
  forall tx d, tx_date (serialize_transaction tx) <> Some (DateObj d).
Proof.
  intros tx d. unfold serialize_transaction. cbn.
  destruct (tx_date tx) as [[s|d0]|]; discriminate.
Qed.

(** X14: serializing transactions a second time changes nothing, keeps
    their number, and leaves no [datetime] among the dates. *)
Theorem serialize_transactions_idempotent :
  forall txs,
    _serialize_transactions (_serialize_transactions txs)
    = _serialize_transactions txs
    /\ List.length (_serialize_transactions txs) = List.length txs
    /\ forall tx, In tx (_serialize_transactions txs) ->
                  forall d, tx_date tx <> Some (DateObj d).
Proof.
  intro txs. unfold _serialize_transactions. split; [|split].
  - rewrite map_map. apply map_ext. apply serialize_transaction_idempotent.
  - apply length_map.
  - intros tx H d. apply in_map_iff in H. destruct H as (tx0 & <- & _).
    apply serialize_transaction_string_date.
Qed.

Lemma serialize_transaction_fixed :
  forall tx,
    (forall d, tx_date tx <> Some (DateObj d)) ->
    serialize_transaction tx = tx.
Proof.
  intros [dt ds am ty se] H. unfold serialize_transaction. cbn in *.
  destruct dt as [[s|d]|]; try reflexivity.
  exfalso. apply (H d). reflexivity.
Qed.

Lemma map_fixed :
  forall (A : Type) (f : A -> A) l,
    (forall x, In x l -> f x = x) -> map f l = l.
Proof.
  intros A f l. induction l as [|x l IH]; intro H; [reflexivity|].
  cbn. rewrite (H x) by (left; reflexivity).
  rewrite IH; [reflexivity|]. intros y Hy. apply H. right. assumption.
Qed.

(** X15: the transactions of the table extractor pass through
    serialization unchanged, their dates being cell texts. *)
Theorem table_transactions_serialize_unchanged :
  forall document,
    _serialize_transactions (_extract_transactions document)
    = _extract_transactions document.
Proof.
  intro document. unfold _serialize_transactions.
  apply map_fixed. intros tx H.
  apply serialize_transaction_fixed.
  apply (extracted_shape document tx H).
Qed.

(* ================================================================== *)
(** ** Daily balances *)
(* ================================================================== *)

Lemma property_step_keeps :
  forall b p,
    b_description (property_step b p) = b_description b
    /\ ((forall d, b_date b <> Some (DateObj d)) ->
        forall d, b_date (property_step b p) <> Some (DateObj d)).
Proof.
  intros b p. unfold property_step.
  destruct (PyStr.contains "date" _); [split; [reflexivity | discriminate]|].
  destruct (_ || _); [|split; [reflexivity | auto]].
  destruct (parse_amount _); split; try reflexivity; auto.
Qed.

Lemma properties_keep :
  forall ps b,
    b_description (fold_left property_step ps b) = b_description b
    /\ ((forall d, b_date b <> Some (DateObj d)) ->
        forall d, b_date (fold_left property_step ps b) <> Some (DateObj d)).
Proof.
  induction ps as [|p ps IH]; intro b; cbn [fold_left]; [split; auto|].
  destruct (IH (property_step b p)) as [Hd Hdate].
  destruct (property_step_keeps b p) as [Hd' Hdate'].
  split; [congruence | auto].
Qed.

Lemma entity_balance_shape :
  forall e b,
    entity_balance e = Some b ->
    (exists f, b_balance b = Some f)
    /\ b_description b = be_mention_text e
    /\ forall d, b_date b <> Some (DateObj d).
Proof.
  intros e b H. unfold entity_balance in H.
  destruct (negb _ && negb _); [discriminate|].
  match type of H with
  | context [fold_left property_step ?ps ?b0] =>
      destruct (properties_keep ps b0) as [Hd Hdate];
      destruct (b_balance (fold_left property_step ps b0)) as [f|] eqn:Ef;
      [|discriminate]
  end.
  injection H as <-. split; [exists f; exact Ef|]. split; [exact Hd|].
  apply Hdate. discriminate.
Qed.

Lemma row_balance_shape :
  forall row b,
    row_balance row = Some b ->
    (exists f, b_balance b = Some f)
    /\ b_description b = None
    /\ exists s, b_date b = Some (DateStr s).
Proof.
  intros row b H. unfold row_balance in H.
  destruct (2 <=? List.length row)%nat; [|discriminate].
  destruct (anchored_texts row) as [|d [|v rest]]; try discriminate.
  destruct (parse_amount v) as [f|]; [|discriminate].
  injection H as <-. cbn. repeat split; eexists; reflexivity.
Qed.

Lemma in_entity_balances :
  forall es b,
    In b (entity_balances es) <->
    exists e, In e es /\ entity_balance e = Some b.
Proof.
  intros es b. unfold entity_balances. rewrite in_flat_map. split.
  - intros (e & Hin & H). exists e. split; [assumption|].
    destruct (entity_balance e) as [b'|]; [|contradiction].
    destruct H as [<- | []]. reflexivity.
  - intros (e & Hin & H). exists e. split; [assumption|].
    rewrite H. left. reflexivity.
Qed.

Lemma extracted_balance_shape :
  forall document b,
    In b (_extract_daily_balances document) ->
    (exists f, b_balance b = Some f)
    /\ (forall d, b_date b <> Some (DateObj d))
    /\ bd_entities document <> [].
Proof.
  intros document b H. unfold _extract_daily_balances in H.
  destruct (bd_entities document) as [|e0 es] eqn:Ees; [contradiction|].
  split; [|split; [|discriminate]].
  - destruct (entity_balances (e0 :: es)) as [|b0 bs] eqn:Eb.
    + apply in_flat_map in H. destruct H as (page & _ & H).
      apply in_flat_map in H. destruct H as (table & _ & H).
      unfold table_balances in H.
      destruct (_ || _); [|contradiction].
      apply in_flat_map in H. destruct H as (row & _ & H).
      destruct (row_balance row) as [b'|] eqn:Er; [|contradiction].
      destruct H as [<- | []].
      apply (row_balance_shape row b' Er).
    + rewrite <- Eb in H. apply in_entity_balances in H.
      destruct H as (e & _ & He). apply (entity_balance_shape e b He).
  - destruct (entity_balances (e0 :: es)) as [|b0 bs] eqn:Eb.
    + apply in_flat_map in H. destruct H as (page & _ & H).
      apply in_flat_map in H. destruct H as (table & _ & H).
      unfold table_balances in H.
      destruct (_ || _); [|contradiction].
      apply in_flat_map in H. destruct H as (row & _ & H).
      destruct (row_balance row) as [b'|] eqn:Er; [|contradiction].
      destruct H as [<- | []].
      destruct (row_balance_shape row b' Er) as (_ & _ & s & Hs).
      intro d. rewrite Hs. discriminate.
    + rewrite <- Eb in H. apply in_entity_balances in H.
      destruct H as (e & _ & He). apply (entity_balance_shape e b He).
Qed.

(** X16: every balance the extractor returns has a numeric balance and
    a date that, when present, is a text; and none is returned, not even
    from a balance table, for a document without entities. *)
Theorem daily_balance_shape :
  forall document b,
    In b (_extract_daily_balances document) ->
    (exists f, b_balance b = Some f)
    /\ (forall d, b_date b <> Some (DateObj d))
    /\ bd_entities document <> [].
Proof. exact extracted_balance_shape. Qed.

Lemma daily_balance_shape_witness :
  let b := {| b_description := None;
              b_date := Some (DateStr "03/14");
              b_balance := Some (PyFloat.of_Z 1250) |} in
  let document := {| bd_entities := [daily_entity "n/a"];
                     bd_pages := [ {| tables := [balance_table] |} ] |} in
  (exists f, b_balance b = Some f)
  /\ (forall d, b_date b <> Some (DateObj d))
  /\ bd_entities document <> [].
Proof.
  cbv zeta.
  apply (daily_balance_shape
           {| bd_entities := [daily_entity "n/a"];
              bd_pages := [ {| tables := [balance_table] |} ] |}).
  vm_compute. left. reflexivity.
Defined.

(** X17: as soon as one entity yields a balance, the result is the
    balances of the entities, in entity order, and no table is read. *)
Theorem entity_balances_suppress_tables :
  forall document e b,
    In e (bd_entities document) ->
    entity_balance e = Some b ->
    _extract_daily_balances document = entity_balances (bd_entities document)
    /\ forall b', In b' (_extract_daily_balances document) ->
                  exists e', In e' (bd_entities document)
                             /\ entity_balance e' = Some b'
                             /\ b_description b' = be_mention_text e'.
Proof.
  intros document e b Hin He.
  assert (Hb : In b (entity_balances (bd_entities document)))
    by (apply in_entity_balances; exists e; split; assumption).
  assert (H : _extract_daily_balances document
              = entity_balances (bd_entities document)).
  { unfold _extract_daily_balances.
    destruct (bd_entities document) as [|e0 es]; [contradiction|].
    destruct (entity_balances (e0 :: es)); [contradiction | reflexivity]. }
  split; [exact H|].
  intros b' Hb'. rewrite H in Hb'. apply in_entity_balances in Hb'.
  destruct Hb' as (e' & Hin' & He'). exists e'.
  split; [assumption|]. split; [assumption|].
  apply (entity_balance_shape e' b' He').
Qed.

Lemma entity_balances_suppress_tables_witness :
  let document := {| bd_entities := [daily_entity "$1,250.00"];
                     bd_pages := [ {| tables := [balance_table] |} ] |} in
  _extract_daily_balances document = entity_balances (bd_entities document)
  /\ forall b', In b' (_extract_daily_balances document) ->
                exists e', In e' (bd_entities document)
                           /\ entity_balance e' = Some b'
                           /\ b_description b' = be_mention_text e'.
Proof.
  cbv zeta.
  apply (entity_balances_suppress_tables
           {| bd_entities := [daily_entity "$1,250.00"];
              bd_pages := [ {| tables := [balance_table] |} ] |}
           (daily_entity "$1,250.00")
           {| b_description := Some "03/14 1,250.00";
              b_date := Some (DateStr "03/14");
              b_balance := Some (PyFloat.of_Z 1250) |}).
  - left. reflexivity.
  - vm_compute. reflexivity.
Defined.

(** X18: the balances of the extractor pass through serialization
    unchanged. *)
Theorem balances_serialize_unchanged :
  forall document,
    _serialize_balances (_extract_daily_balances document)
    = _extract_daily_balances document.
Proof.
  intro document. unfold _serialize_balances.
  apply map_fixed. intros [ds dt bl] H.
  destruct (extracted_balance_shape document _ H) as (_ & Hd & _).
  cbn in *. destruct dt as [[s|d]|]; try reflexivity.
  exfalso. apply (Hd d). reflexivity.
Qed.

(* ================================================================== *)
(** ** Months in business *)
(* ================================================================== *)

Lemma months_since_quot :
  forall now start,
    months_since now start
    = Z.quot (DateTime.days_between now start * 100) 3044.
Proof.
  intros now start. unfold months_since, Qtrunc, Qdiv, Qinv, Qmult. cbn.
  reflexivity.
Qed.

(** X19: for a start date not after today, the months counted are the
    whole multiples of 30.44 days that fit into the days elapsed: never
    negative, never over, and short by less than one. *)
Theorem months_since_bounds :
  forall now start,
    0 <= DateTime.days_between now start ->
    0 <= months_since now start
    /\ 3044 * months_since now start <= 100 * DateTime.days_between now start
    /\ 100 * DateTime.days_between now start
       < 3044 * (months_since now start + 1).
Proof.
  intros now start H. rewrite months_since_quot.
  set (d := DateTime.days_between now start) in *.
  rewrite Z.quot_div_nonneg by lia.
  pose proof (Z.div_mod (d * 100) 3044 ltac:(lia)) as Hdm.
  pose proof (Z.mod_pos_bound (d * 100) 3044 ltac:(lia)) as Hm.
  pose proof (Z.div_pos (d * 100) 3044 ltac:(lia) ltac:(lia)) as Hp.
  lia.
Qed.

Lemma months_since_bounds_witness :
  0 <= months_since a_monday (DateTime.mk 2020 1 15)
  /\ 3044 * months_since a_monday (DateTime.mk 2020 1 15)
     <= 100 * DateTime.days_between a_monday (DateTime.mk 2020 1 15)
  /\ 100 * DateTime.days_between a_monday (DateTime.mk 2020 1 15)
     < 3044 * (months_since a_monday (DateTime.mk 2020 1 15) + 1).
Proof.
  apply (months_since_bounds a_monday (DateTime.mk 2020 1 15)).
  vm_compute. discriminate.
Defined.

(** X20: a month count other than zero computed from the start date is
    final: whatever the free-text duration field holds, it is the value
    of [time_in_business_months]. *)
Theorem start_date_months_final :
  forall now document start m,
    months_from_start_date now start = Some m -> m <> 0 ->
    computed_months now document start = Some m.
Proof. exact nonzero_months_final. Qed.

Lemma start_date_months_final_witness :
  computed_months a_monday recent_start_document "2020-01-15" = Some 47.
Proof.
  apply (start_date_months_final a_monday recent_start_document
           "2020-01-15" 47).
  - vm_compute. reflexivity.
  - discriminate.
Defined.

(* ================================================================== *)
(** ** Amounts of both extractors *)
(* ================================================================== *)

(** X21: the amount of a transaction recovered by the text fallback
    parser lies between 10 and 10,000,000. *)
Theorem fallback_amount_range :
  forall now t tx,
    In tx (_parse_transactions_from_text now t) ->
    exists amt,
      tx_amount tx = Some amt
      /\ PyFloat.leb (PyFloat.of_Z 10) amt = true
      /\ PyFloat.leb amt (PyFloat.of_Z 10000000) = true.
Proof. exact parsed_amount_in_range. Qed.

Lemma fallback_amount_range_witness :
  exists amt,
    tx_amount {| tx_date := Some (DateObj (DateTime.mk 2023 3 14));
                 tx_description := Some "";
                 tx_amount := Some (PyFloat.of_Z 2023);
                 tx_type := Some "DEBIT";
                 tx_section := None |} = Some amt
    /\ PyFloat.leb (PyFloat.of_Z 10) amt = true
    /\ PyFloat.leb amt (PyFloat.of_Z 10000000) = true.
Proof.
  apply (fallback_amount_range a_monday payroll_line).
  vm_compute. left. reflexivity.
Defined.

(** X22: a transaction of the table extractor is the dictionary of a
    body row of a table of the document, and its amount is the absolute
    value of the number parsed from that row's amount cell: it is
    [>= 0] unless that number is NaN, and then it is NaN. *)
Theorem table_amount_absolute :
  forall document tx,
    In tx (_extract_transactions document) ->
    exists table row amt,
      row_of_document document table row
      /\ row_transaction_of table row = Some tx
      /\ row_amount table row = Some amt
      /\ tx_amount tx = Some (PyFloat.fabs amt)
      /\ (PyFloat.is_nan amt = false ->
          PyFloat.geb (PyFloat.fabs amt) zero = true)
      /\ (PyFloat.is_nan amt = true -> PyFloat.fabs amt = PyFloat.NaN).
Proof.
  intros document tx H.
  apply extracted_from_row in H. destruct H as (table & row & Hrow & Htx).
  destruct (row_transaction_of_eq table row tx Htx) as (amt & Hamt & Ha & _).
  exists table, row, amt.
  split; [exact Hrow|]. split; [exact Htx|]. split; [exact Hamt|].
  split; [exact Ha|]. split; [apply fabs_nonneg|].
  destruct amt; try discriminate. reflexivity.
Qed.

Lemma table_amount_absolute_witness :
  let tx := {| tx_date := None; tx_description := None;
               tx_amount := Some (PyFloat.dec 1250 2);
               tx_type := Some "CREDIT";
               tx_section := Some "DEPOSITS_AND_ADDITIONS" |} in
  exists table row amt,
    row_of_document (table_document None inline_table) table row
    /\ row_transaction_of table row = Some tx
    /\ row_amount table row = Some amt
    /\ tx_amount tx = Some (PyFloat.fabs amt)
    /\ (PyFloat.is_nan amt = false ->
        PyFloat.geb (PyFloat.fabs amt) zero = true)
    /\ (PyFloat.is_nan amt = true -> PyFloat.fabs amt = PyFloat.NaN).
Proof.
  cbv zeta.
  apply (table_amount_absolute (table_document None inline_table)).
  vm_compute. left. reflexivity.
Defined.

(* ================================================================== *)
(** ** Processor names *)
(* ================================================================== *)

(** X23: a processor name is produced exactly for the types [form] and
    [bank] with a configured processor id, and it is then the resource
    path of that id; every other call raises. *)
Theorem processor_name_defined :
  forall settings processor_type name,
    _get_processor_name settings processor_type = inl name
    <-> exists processor_id,
          processor_id <> ""
          /\ ((processor_type = "form"
               /\ processor_id = DOCUMENT_AI_FORM_PROCESSOR settings)
              \/ (processor_type = "bank"
                  /\ processor_id
                     = DOCUMENT_AI_BANK_STATEMENT_PROCESSOR settings))
          /\ name = "projects/" ++ GCP_PROJECT_ID settings ++ "/locations/"
                    ++ DOCUMENT_AI_LOCATION settings ++ "/processors/"
                    ++ processor_id.
Proof.
  intros settings processor_type name. unfold _get_processor_name.
  destruct (String.eqb_spec processor_type "form") as [-> | Hf].
  - destruct (DOCUMENT_AI_FORM_PROCESSOR settings) as [|c id] eqn:E;
      cbn [PyStr.nonempty].
    + split; [discriminate|].
      intros (pid & Hne & [[_ ->] | [H _]] & _); [congruence | discriminate].
    + split.
      * intros [= <-]. exists (String c id).
        split; [discriminate|]. split; [left; split; reflexivity | reflexivity].
      * intros (pid & _ & [[_ ->] | [H _]] & ->); [reflexivity | discriminate].
  - destruct (String.eqb_spec processor_type "bank") as [-> | Hb].
    + destruct (DOCUMENT_AI_BANK_STATEMENT_PROCESSOR settings) as [|c id] eqn:E;
        cbn [PyStr.nonempty].
      * split; [discriminate|].
        intros (pid & Hne & [[H _] | [_ ->]] & _); [discriminate | congruence].
      * split.
        -- intros [= <-]. exists (String c id).
           split; [discriminate|].
           split; [right; split; reflexivity | reflexivity].
        -- intros (pid & _ & [[H _] | [_ ->]] & ->);
             [discriminate | reflexivity].
    + split; [discriminate|].
      intros (pid & _ & [[H _] | [H _]] & _); contradiction.
Qed.
